(** * Docker Update Commander: update detection and auto-update orchestration

    A shallow embedding of [src/app.py] and the properties of its
    checker, policy, cache and background scheduler.

    The Python code talks to three things outside itself: the Docker
    daemon (through the [docker] client), the configuration file and the
    clock.  They are gathered in a record [World] of answer functions.
    Every answer may depend on the calls made so far (the [trace]), so a
    world can answer the same request differently at different moments:
    a pull may fail once and succeed later, the clock advances, the
    configuration file may be edited between two iterations.

    Python code that can raise is embedded in the monad [M]: a function
    from the program state (the global [SERVER_CACHE] and the trace of
    calls and log lines) to a [PyResult] and the next state.  Side
    effects made before an exception is raised persist, as in Python. *)

From Stdlib Require Import String Ascii List ZArith QArith Bool Lia Lqa.
From stdpp Require Import base option list gmap strings.

Close Scope Q_scope.
Open Scope string_scope.
Open Scope list_scope.

(* ===================================================================== *)
(** ** Python values and exceptions                                        *)
(* ===================================================================== *)

(** The exception classes the code distinguishes.  [ImageNotFound] and
    [NotFound] are subclasses of [APIError] in the docker SDK; everything
    the program does not name is [OtherError]. *)
Inductive exn_class : Type :=
  | NotFound | ImageNotFound | APIError
  | ValueError | TypeError | AttributeError | IndexError | OtherError.

Record exn : Type := Exn { exn_cls : exn_class; exn_msg : string }.

Inductive PyResult (A : Type) : Type :=
  | Ok (a : A)
  | Raise (e : exn).
Arguments Ok {A} a.
Arguments Raise {A} e.

(** [except (docker.errors.NotFound, docker.errors.APIError)] *)
Definition is_registry_error (e : exn) : bool :=
  match exn_cls e with
  | NotFound | ImageNotFound | APIError => true
  | _ => false
  end.

(** Values read from the JSON configuration document. *)
#[warnings="-register-all"]
Inductive json : Type :=
  | JNull
  | JBool (b : bool)
  | JInt (z : Z)
  | JFloat (q : Q)
  | JStr (s : string)
  | JList (l : list json)
  | JObj (m : gmap string json).

(** ** Strings *)

(** Python's [needle in hay] on two strings. *)
Fixpoint str_in (needle hay : string) : bool :=
  if String.prefix needle hay then true
  else match hay with
       | EmptyString => false
       | String _ hay' => str_in needle hay'
       end.

(** [s.split(':')[-1]]: what follows the last colon, or all of [s]. *)
Fixpoint last_component (s : string) : string :=
  match s with
  | EmptyString => EmptyString
  | String c s' =>
      if str_in ":" s' then last_component s'
      else if Ascii.eqb c ":" then s'
      else s
  end.

(** [x.split(':')[-1][:12]] *)
Definition short_of (x : string) : string :=
  String.substring 0 12 (last_component x).

(** Truth value of a Python string. *)
Definition truthy (s : string) : bool := negb (String.eqb s EmptyString).

(** ** Operators on configuration values *)

(** [v == s] for a string literal [s]. *)
Definition py_eq_str (v : json) (s : string) : bool :=
  match v with
  | JStr s' => String.eqb s' s
  | _ => false
  end.

(** [name in v]: element of a list, substring of a string, key of a
    dict; a [TypeError] on a value that is not a container. *)
Definition py_in (name : string) (v : json) : PyResult bool :=
  match v with
  | JList l => Ok (existsb (fun x => py_eq_str x name) l)
  | JStr s => Ok (str_in name s)
  | JObj m => Ok (bool_decide (is_Some (m !! name)))
  | _ => Raise (Exn TypeError "argument is not iterable")
  end.

(* ===================================================================== *)
(** ** Data model                                                          *)
(* ===================================================================== *)

(** An image object of the docker SDK: [id], [tags], [attrs['Created']]. *)
Record Image : Type := {
  img_id : string;
  img_tags : list string;
  img_created : option string
}.

(** [container.attrs.get('Config', {})]: the key may be absent, hold
    something that is not a dict, or hold a dict whose ['Image'] entry
    is absent ([None]) or a string. *)
Inductive ConfigAttr : Type :=
  | ConfigAbsent
  | ConfigNotDict
  | ConfigDict (image : option string).

(** A container handle.  [id], [short_id], [name] and [status] are read
    from the attributes fetched with the handle.  [image] is a live
    property: each read asks the daemon again, so [c_image c k] is the
    answer to the [k]-th read made through this handle. *)
Record Container : Type := {
  c_id : string;
  c_short_id : string;
  c_name : string;
  c_status : string;
  c_image : nat -> PyResult Image;
  c_config : ConfigAttr
}.

(** The dict built at lines 112-120. *)
Record Outcome : Type := {
  update_available : bool;
  is_local : bool;
  current_id_short : string;
  new_id_short : string;
  current_created : string;
  new_created : string;
  checked_at : string
}.

(** Keyword arguments of [client.containers.run]. *)
Record RunRequest : Type := {
  run_image : string;
  run_command : string;
  run_volumes : list (string * (string * string));
  run_environment : list (string * string);
  run_remove : bool
}.

Inductive LogLevel : Type := Info | Warning | Error.

(** What the program does to the outside, in order. *)
Inductive Event : Type :=
  | EvContainersList
  | EvContainersGet (container_id : string)
  | EvImagesPull (name : string)
  | EvContainersRun (req : RunRequest)
  | EvLog (lvl : LogLevel) (msg : string)
  | EvSleep (seconds : Z).

(** The configuration file as [load_config] finds it. *)
Inductive ConfigFile : Type :=
  | FileMissing                    (* os.path.exists is False *)
  | FileRaises (e : exn)           (* open or json.load raises *)
  | FileJson (doc : json).

Record World : Type := {
  client_connected : bool;         (* the global client is not None *)
  containers_list : list Event -> PyResult (list Container);
  containers_get : list Event -> string -> PyResult Container;
  images_pull : list Event -> string -> PyResult Image;
  containers_run : list Event -> RunRequest -> PyResult unit;
  gethostname : list Event -> string;
  time_time : list Event -> Q;
  datetime_now : list Event -> string;
  config_file : list Event -> ConfigFile
}.

Record State : Type := {
  SERVER_CACHE : gmap string Outcome;
  trace : list Event
}.

(* ===================================================================== *)
(** ** The monad of Python computations                                    *)
(* ===================================================================== *)

Definition M (A : Type) : Type := State -> PyResult A * State.

Definition ret {A} (a : A) : M A := fun st => (Ok a, st).

Definition bind {A B} (m : M A) (k : A -> M B) : M B :=
  fun st =>
    match m st with
    | (Ok a, st') => k a st'
    | (Raise e, st') => (Raise e, st')
    end.

Definition raise {A} (e : exn) : M A := fun st => (Raise e, st).

Definition lift {A} (r : PyResult A) : M A := fun st => (r, st).

(** [try: m  except Exception as e: handler e] *)
Definition try_except {A} (m : M A) (handler : exn -> M A) : M A :=
  fun st =>
    match m st with
    | (Ok a, st') => (Ok a, st')
    | (Raise e, st') => handler e st'
    end.

(** Run [m] and hand its result, value or exception, to the caller. *)
Definition attempt {A} (m : M A) : M (PyResult A) :=
  fun st => let (r, st') := m st in (Ok r, st').

Definition emit (ev : Event) : M unit :=
  fun st => (Ok tt, {| SERVER_CACHE := SERVER_CACHE st; trace := trace st ++ [ev] |}).

(** A request to the outside: the world answers from the trace so far,
    and the request is appended to the trace. *)
Definition ask {A} (ev : Event) (answer : list Event -> PyResult A) : M A :=
  fun st =>
    (answer (trace st),
     {| SERVER_CACHE := SERVER_CACHE st; trace := trace st ++ [ev] |}).

(** A read that leaves no trace (clock, host name, file). *)
Definition observe {A} (answer : list Event -> A) : M A :=
  fun st => (Ok (answer (trace st)), st).

Definition log (lvl : LogLevel) (msg : string) : M unit := emit (EvLog lvl msg).

Definition sleep (seconds : Z) : M unit := emit (EvSleep seconds).

Definition with_cache (f : gmap string Outcome -> gmap string Outcome) : M unit :=
  fun st => (Ok tt, {| SERVER_CACHE := f (SERVER_CACHE st); trace := trace st |}).

(** An attribute of the global [client]: when the connection failed at
    start-up the global is [None] and the access raises. *)
Definition client_call {A} (W : World) (ev : Event)
    (answer : list Event -> PyResult A) : M A :=
  if client_connected W then ask ev answer
  else raise (Exn AttributeError "'NoneType' object has no attribute").

Notation "x <- m ;; k" := (bind m (fun x => k))
  (at level 100, m at next level, right associativity).

(** Sequencing of pure fallible steps. *)
Definition and_then {A B} (r : PyResult A) (k : A -> PyResult B) : PyResult B :=
  match r with
  | Ok a => k a
  | Raise e => Raise e
  end.

(** [for x in l: body x]: an exception leaving the body ends the loop. *)
Fixpoint for_each {A} (body : A -> M unit) (l : list A) : M unit :=
  match l with
  | [] => ret tt
  | x :: rest => _ <- body x ;; for_each body rest
  end.

(* ===================================================================== *)
(** ** Configuration (lines 28-55)                                         *)
(* ===================================================================== *)

Definition DEFAULT_CONFIG : gmap string json :=
  <["check_mode" := JStr "manual"]>
  (<["check_interval" := JInt 60]>
  (<["auto_update_mode" := JStr "off"]>
  (<["auto_update_containers" := JList []]> ∅))).

(** [{**DEFAULT_CONFIG, **doc}]: the entries of [doc] win; unpacking
    something that is not a mapping raises [TypeError]. *)
Definition merge_over_defaults (doc : json) : PyResult (gmap string json) :=
  match doc with
  | JObj m => Ok (m ∪ DEFAULT_CONFIG)
  | _ => Raise (Exn TypeError "object is not a mapping")
  end.

(** [config.get(key, default)] *)
Definition config_get (config : gmap string json) (key : string)
    (default : json) : json :=
  match config !! key with
  | Some v => v
  | None => default
  end.

(** [os.path.exists(CONFIG_FILE)] *)
Definition file_exists (file : ConfigFile) : bool :=
  match file with
  | FileMissing => false
  | _ => true
  end.

(** [json.load(open(CONFIG_FILE))] *)
Definition read_json (file : ConfigFile) : PyResult json :=
  match file with
  | FileJson doc => Ok doc
  | FileRaises e => Raise e
  | FileMissing => Raise (Exn OtherError "No such file or directory")
  end.

Definition load_config (W : World) : M (gmap string json) :=
  file <- observe (config_file W) ;;
  if negb (file_exists file) then ret DEFAULT_CONFIG
  else
    try_except
      (lift (and_then (read_json file) merge_over_defaults))
      (fun e =>
         _ <- log Error ("Error loading config: " +:+ exn_msg e) ;;
         ret DEFAULT_CONFIG).

(* ===================================================================== *)
(** ** Image identity resolver (lines 67-77)                               *)
(* ===================================================================== *)

(** The body of the [try].  [k] is the number of reads of
    [container.image] made through this handle before the call. *)
Definition get_image_name_body (k : nat) (container : Container)
    : PyResult string :=
  and_then (c_image container k) (fun img =>
  if negb (bool_decide (img_tags img = [])) then
    and_then (c_image container (S k)) (fun img' =>
    match img_tags img' with
    | t :: _ => Ok t
    | [] => Raise (Exn IndexError "list index out of range")
    end)
  else
    and_then
      (match c_config container with
       | ConfigAbsent => Ok EmptyString
       | ConfigNotDict =>
           Raise (Exn AttributeError "object has no attribute 'get'")
       | ConfigDict None => Ok EmptyString
       | ConfigDict (Some s) => Ok s
       end)
      (fun image_config =>
         if truthy image_config then Ok image_config
         else Ok "unknown-image")).

Definition get_image_name (k : nat) (container : Container) : string :=
  match get_image_name_body k container with
  | Ok name => name
  | Raise _ => "unknown"
  end.

(* ===================================================================== *)
(** ** Update checker (lines 79-125)                                       *)
(* ===================================================================== *)

(** [img.attrs.get('Created', 'Unknown')] *)
Definition created_of (img : Image) : string :=
  match img_created img with
  | Some s => s
  | None => "Unknown"
  end.

(** The locals assigned at lines 94-97 and in the [try] at 100-110. *)
Record PullVars : Type := {
  pv_new_id : option string;
  pv_new_created : option string;
  pv_update_available : bool;
  pv_is_local : bool
}.

(** Lines 94-110.  The pull is the first statement of the [try] and
    the only one that can raise, so the handlers see the four locals
    with their initial values. *)
Definition try_pull (W : World) (image_name current_id : string) : M PullVars :=
  try_except
    (new_img <- client_call W (EvImagesPull image_name)
                  (fun t => images_pull W t image_name) ;;
     ret {| pv_new_id := Some (img_id new_img);
            pv_new_created := Some (created_of new_img);
            pv_update_available := negb (String.eqb (img_id new_img) current_id);
            pv_is_local := false |})
    (fun e =>
       if is_registry_error e then
         _ <- log Info ("Local detection: '" +:+ image_name +:+
                        "' not found on registry. Treating as local image.") ;;
         ret {| pv_new_id := None;
                pv_new_created := None;
                pv_update_available := false;
                pv_is_local := true |}
       else raise e).

(** [f(x) if x else "n/a"] on an optional string. *)
Definition or_na (f : string -> string) (x : option string) : string :=
  match x with
  | Some s => if truthy s then f s else "n/a"
  | None => "n/a"
  end.

Definition perform_single_check (W : World) (container_id : string) : M Outcome :=
  container <- client_call W (EvContainersGet container_id)
                 (fun t => containers_get W t container_id) ;;
  current_img <- lift (c_image container 0) ;;
  let current_id := img_id current_img in
  let image_name := get_image_name 1 container in
  if negb (truthy image_name) || String.eqb image_name "unknown-image" then
    raise (Exn ValueError "Could not determine image name")
  else
    let current_created := created_of current_img in
    pv <- try_pull W image_name current_id ;;
    now <- observe (datetime_now W) ;;
    let result :=
      {| update_available := pv_update_available pv;
         is_local := pv_is_local pv;
         current_id_short := short_of current_id;
         new_id_short := or_na short_of (pv_new_id pv);
         current_created := current_created;
         new_created := or_na (fun s => s) (pv_new_created pv);
         checked_at := now |} in
    _ <- with_cache (insert container_id result) ;;
    ret result.

(* ===================================================================== *)
(** ** Updater dispatcher (lines 127-144)                                  *)
(* ===================================================================== *)

Definition UPDATER_IMAGE : string := "containrrr/watchtower".

Definition updater_request (container_name : string) : RunRequest :=
  {| run_image := UPDATER_IMAGE;
     run_command := "--run-once " +:+ container_name;
     run_volumes := [("/var/run/docker.sock", ("/var/run/docker.sock", "rw"))];
     run_environment := [("DOCKER_API_VERSION", "1.44")];
     run_remove := true |}.

Definition trigger_updater_engine (W : World) (container_name : string) : M unit :=
  _ <- try_except
         (_ <- log Info ("Pulling latest updater image: " +:+ UPDATER_IMAGE) ;;
          _ <- client_call W (EvImagesPull UPDATER_IMAGE)
                 (fun t => images_pull W t UPDATER_IMAGE) ;;
          ret tt)
         (fun e =>
            log Warning ("Could not pull latest updater image, using local cache: "
                         +:+ exn_msg e)) ;;
  client_call W (EvContainersRun (updater_request container_name))
    (fun t => containers_run W t (updater_request container_name)).

(* ===================================================================== *)
(** ** Background worker (lines 148-208)                                   *)
(* ===================================================================== *)

(** Lines 183-187: the value of [should_update] once the outcome has
    passed the test of line 182.  [and] evaluates the membership test
    only in mode ['selected']. *)
Definition should_update (auto_up_mode auto_up_list : json) (name : string)
    : PyResult bool :=
  if py_eq_str auto_up_mode "all" then Ok true
  else if py_eq_str auto_up_mode "selected" then py_in name auto_up_list
  else Ok false.

(** Lines 182-189: is [trigger_updater_engine] called for this outcome? *)
Definition dispatch_decision (auto_up_mode auto_up_list : json) (name : string)
    (result : Outcome) : PyResult bool :=
  if update_available result && negb (is_local result) then
    should_update auto_up_mode auto_up_list name
  else Ok false.

(** Lines 180-193: the body of the inner [try]. *)
Definition check_and_update (W : World) (auto_up_mode auto_up_list : json)
    (c : Container) : M unit :=
  result <- perform_single_check W (c_id c) ;;
  dispatch <- lift (dispatch_decision auto_up_mode auto_up_list (c_name c) result) ;;
  if dispatch then
    _ <- log Info ("Auto-Update triggered for " +:+ c_name c) ;;
    _ <- trigger_updater_engine W (c_name c) ;;
    with_cache (delete (c_id c))
  else ret tt.

(** Lines 179-196: the inner [try] around one container. *)
Definition process_container (W : World) (auto_up_mode auto_up_list : json)
    (c : Container) : M unit :=
  try_except
    (check_and_update W auto_up_mode auto_up_list c)
    (fun inner_e =>
       log Warning ("Failed to process " +:+ c_name c +:+ ": " +:+ exn_msg inner_e)).

(** Lines 175-196: the body of the [for] loop. *)
Definition cycle_body (W : World) (current_hostname : string)
    (auto_up_mode auto_up_list : json) (c : Container) : M unit :=
  if str_in (c_short_id c) current_hostname then ret tt
  else
    let image_name := get_image_name 0 c in
    if str_in "watchtower" image_name then ret tt
    else process_container W auto_up_mode auto_up_list c.

(** Lines 168-199: the body of the [try] that runs one cycle.  Its
    value is the new [last_check_time]. *)
Definition check_cycle (W : World) (config : gmap string json) : M Q :=
  containers <- client_call W EvContainersList (containers_list W) ;;
  current_hostname <- observe (gethostname W) ;;
  let auto_up_mode := config_get config "auto_update_mode" (JStr "off") in
  let auto_up_list := config_get config "auto_update_containers" (JList []) in
  _ <- for_each (cycle_body W current_hostname auto_up_mode auto_up_list)
         containers ;;
  last_check_time <- observe (time_time W) ;;
  _ <- log Info "Background cycle finished." ;;
  ret last_check_time.

Section Scheduler.

(** Python's [int] on a string (signs, blanks, underscores, ...) is a
    builtin, not code of this repository: it is a parameter. *)
Variable int_of_str : string -> PyResult Z.

(** [int(v)]: floats are truncated towards zero.  A float is one of
    the finite values a JSON number can denote. *)
Definition py_int (v : json) : PyResult Z :=
  match v with
  | JInt z => Ok z
  | JBool b => Ok (if b then 1 else 0)%Z
  | JFloat q => Ok (Z.quot (Qnum q) (Z.pos (Qden q)))
  | JStr s => int_of_str s
  | _ => Raise (Exn TypeError "int() argument must be a string or a number")
  end.

(** [(time.time() - last_check_time) >= interval_seconds], with the
    readings of the clock taken as rationals. *)
Definition interval_elapsed (now last_check_time : Q) (interval_seconds : Z) : bool :=
  Qle_bool (inject_Z interval_seconds) (now - last_check_time)%Q.

(** Lines 156-208: one pass through the body of [while True].  The
    value is [last_check_time] as the next pass finds it: the local is
    assigned at line 198 only, and nothing after that line can raise,
    so the outer handler always sees the old value. *)
Definition worker_iteration (W : World) (last_check_time : Q) : M Q :=
  try_except
    (config <- load_config W ;;
     let mode := config_get config "check_mode" (JStr "manual") in
     last_check_time' <-
       (if py_eq_str mode "background" then
          interval_minutes <- lift (py_int (config_get config "check_interval" (JInt 60))) ;;
          let interval_seconds := (interval_minutes * 60)%Z in
          now <- observe (time_time W) ;;
          if interval_elapsed now last_check_time interval_seconds then
            _ <- log Info "Background schedule: Starting check cycle..." ;;
            try_except
              (check_cycle W config)
              (fun e =>
                 _ <- log Error ("Error during container loop: " +:+ exn_msg e) ;;
                 ret last_check_time)
          else ret last_check_time
        else ret last_check_time) ;;
     _ <- sleep 10 ;;
     ret last_check_time')
    (fun outer_e =>
       _ <- log Error ("Critical worker error: " +:+ exn_msg outer_e) ;;
       _ <- sleep 60 ;;
       ret last_check_time).

(** The first [n] passes of the endless loop. *)
Fixpoint worker_loop (W : World) (n : nat) (last_check_time : Q) : M Q :=
  match n with
  | O => ret last_check_time
  | S n' =>
      last_check_time' <- worker_iteration W last_check_time ;;
      worker_loop W n' last_check_time'
  end.

Definition background_worker (W : World) (n : nat) : M Q :=
  _ <- log Info "Background worker started." ;;
  worker_loop W n 0%Q.

End Scheduler.

(* ===================================================================== *)
(** ** Routes (lines 236-289)                                              *)
(* ===================================================================== *)

Inductive Response (A : Type) : Type :=
  | Json (body : A)
  | JsonError (message : string) (status : Z).
Arguments Json {A} body.
Arguments JsonError {A} message status.

Record ContainerData : Type := {
  cd_id : string;
  cd_name : string;
  cd_image : string;
  cd_status : string;
  cd_short_id : string;
  cd_cached_result : option Outcome
}.

(** Lines 253-264: the entry of one container, with the cached outcome
    when there is one. *)
Definition container_data (cache : gmap string Outcome) (c : Container)
    (image_name : string) : ContainerData :=
  {| cd_id := c_id c;
     cd_name := c_name c;
     cd_image := image_name;
     cd_status := c_status c;
     cd_short_id := c_short_id c;
     cd_cached_result := cache !! c_id c |}.

(** Lines 248-268: one pass of the loop of [list_containers], with the
    list built so far. *)
Definition list_containers_body (current_hostname : string) (c : Container)
    (containers : list ContainerData) : M (list ContainerData) :=
  try_except
    (if str_in (c_short_id c) current_hostname then ret containers
     else
       let image_name := get_image_name 0 c in
       if str_in "watchtower" image_name then ret containers
       else
         fun st =>
           (Ok (containers ++ [container_data (SERVER_CACHE st) c image_name]), st))
    (fun e => ret containers).

Fixpoint list_containers_loop (current_hostname : string)
    (all_containers : list Container) (containers : list ContainerData)
    : M (list ContainerData) :=
  match all_containers with
  | [] => ret containers
  | c :: rest =>
      containers' <- list_containers_body current_hostname c containers ;;
      list_containers_loop current_hostname rest containers'
  end.

Definition list_containers (W : World) : M (Response (list ContainerData)) :=
  if negb (client_connected W) then
    ret (JsonError "Docker socket not connected." 500)
  else
    current_hostname <- observe (gethostname W) ;;
    listed <- attempt (client_call W EvContainersList (containers_list W)) ;;
    match listed with
    | Raise e => ret (JsonError (exn_msg e) 500)
    | Ok all_containers =>
        containers <- list_containers_loop current_hostname all_containers [] ;;
        ret (Json containers)
    end.

Definition check_update (W : World) (container_id : string) : M (Response Outcome) :=
  if negb (client_connected W) then ret (JsonError "No docker connection" 500)
  else
    try_except
      (result <- perform_single_check W container_id ;;
       ret (Json result))
      (fun e =>
         _ <- log Error ("Check failed: " +:+ exn_msg e) ;;
         ret (JsonError (exn_msg e) 500)).

Definition run_update (W : World) (container_name : string) : M (Response string) :=
  if negb (client_connected W) then ret (JsonError "No docker connection" 500)
  else
    try_except
      (_ <- trigger_updater_engine W container_name ;;
       ret (Json ("Update triggered for " +:+ container_name)))
      (fun e => ret (JsonError (exn_msg e) 500)).

(* ===================================================================== *)
(** ** Worlds and states used in the examples                              *)
(* ===================================================================== *)

Definition web_image : Image :=
  {| img_id := "sha256:1111111111111111";
     img_tags := ["web:latest"];
     img_created := Some "2024-01-01T00:00:00Z" |}.

Definition web_image_new : Image :=
  {| img_id := "sha256:2222222222222222";
     img_tags := ["web:latest"];
     img_created := Some "2024-02-02T00:00:00Z" |}.

Definition web : Container :=
  {| c_id := "0123456789abcdef0123";
     c_short_id := "0123456789ab";
     c_name := "web";
     c_status := "running";
     c_image := fun _ => Ok web_image;
     c_config := ConfigDict (Some "web:latest") |}.

(** A daemon that knows [containers], answers every pull with [pull]
    and every run with [run], on a host named [host], with the
    configuration file in state [file] and a clock showing [now]. *)
Definition simple_world (containers : list Container) (pull : PyResult Image)
    (run : PyResult unit) (host : string) (file : ConfigFile) (now : Q) : World :=
  {| client_connected := true;
     containers_list := fun _ => Ok containers;
     containers_get := fun _ id =>
       match find (fun c => String.eqb (c_id c) id) containers with
       | Some c => Ok c
       | None => Raise (Exn NotFound "No such container")
       end;
     images_pull := fun _ _ => pull;
     containers_run := fun _ _ => run;
     gethostname := fun _ => host;
     time_time := fun _ => now;
     datetime_now := fun _ => "2024-03-03T03:03:03";
     config_file := fun _ => file |}.

Definition empty_state : State := {| SERVER_CACHE := ∅; trace := [] |}.

(** A container whose image can be inspected once; the next read of
    [container.image] is answered with a server error. *)
Definition flaky : Container :=
  {| c_id := "fedcba9876543210fedc";
     c_short_id := "fedcba987654";
     c_name := "db";
     c_status := "running";
     c_image := fun k =>
       match k with
       | O => Ok web_image
       | S _ => Raise (Exn APIError "500 Server Error")
       end;
     c_config := ConfigDict (Some "db:1") |}.

(** An image without tags behind a container whose ['Config']
    attribute is not a dict. *)
Definition untagged : Container :=
  {| c_id := "aaaabbbbccccddddeeee";
     c_short_id := "aaaabbbbcccc";
     c_name := "job";
     c_status := "running";
     c_image := fun _ =>
       Ok {| img_id := "sha256:3333333333333333";
             img_tags := [];
             img_created := None |};
     c_config := ConfigNotDict |}.

(** The updater engine itself, as a running container. *)
Definition watchtower : Container :=
  {| c_id := "9999888877776666";
     c_short_id := "999988887777";
     c_name := "updater";
     c_status := "running";
     c_image := fun _ =>
       Ok {| img_id := "sha256:4444444444444444";
             img_tags := ["containrrr/watchtower:latest"];
             img_created := None |};
     c_config := ConfigDict (Some "containrrr/watchtower") |}.

(** A container whose image cannot be inspected at all. *)
Definition broken : Container :=
  {| c_id := "5555444433332222";
     c_short_id := "555544443333";
     c_name := "cache";
     c_status := "running";
     c_image := fun _ => Raise (Exn ImageNotFound "No such image");
     c_config := ConfigDict (Some "cache:7") |}.

Definition stale_outcome : Outcome :=
  {| update_available := true;
     is_local := false;
     current_id_short := "111111111111";
     new_id_short := "222222222222";
     current_created := "2024-01-01T00:00:00Z";
     new_created := "2024-02-02T00:00:00Z";
     checked_at := "2024-03-03T03:03:03" |}.

Definition checked_state : State :=
  {| SERVER_CACHE := {[ c_id web := stale_outcome ]}; trace := [] |}.


(** A host whose clock shows 1000 seconds plus the time slept so far,
    with one container and a configuration asking for a background
    check every [minutes] minutes. *)
Definition slept (t : list Event) : Z :=
  fold_right (fun ev acc =>
                match ev with
                | EvSleep seconds => (seconds + acc)%Z
                | _ => acc
                end) 0%Z t.

Definition background_file (mode : string) (minutes : Z) : ConfigFile :=
  FileJson (JObj (<["check_mode" := JStr mode]>
                  (<["check_interval" := JInt minutes]> ∅))).

Definition ticking_world (mode : string) (minutes : Z) : World :=
  {| client_connected := true;
     containers_list := fun _ => Ok [web];
     containers_get := fun _ _ => Ok web;
     images_pull := fun _ _ => Ok web_image;
     containers_run := fun _ _ => Ok tt;
     gethostname := fun _ => "host";
     time_time := fun t => inject_Z (1000 + slept t);
     datetime_now := fun _ => "2024-03-03T03:03:03";
     config_file := fun _ => background_file mode minutes |}.

(** An [int] that accepts no string at all. *)
Definition no_int_of_str (s : string) : PyResult Z :=
  Raise (Exn ValueError "invalid literal for int()").
(* ===================================================================== *)
(** ** Reasoning about computations                                        *)
(* ===================================================================== *)

Ltac unfold_M :=
  unfold check_and_update, client_call, log, sleep in *;
  unfold bind, ret, raise, lift, try_except, attempt, emit, ask, observe,
    with_cache in *.

(** Split on every test and every answer of the world in the goal. *)
Ltac split_cases :=
  repeat (simpl in *; simplify_eq; try case_match).

Definition exclusive (o : Outcome) : Prop :=
  is_local o = true -> update_available o = false.

Definition cache_exclusive (cache : gmap string Outcome) : Prop :=
  forall k o, cache !! k = Some o -> exclusive o.

(** ** What a trace says *)

(** The ids handed to [client.containers.get], in order. *)
Definition checked_ids (t : list Event) : list string :=
  omap (fun ev => match ev with EvContainersGet i => Some i | _ => None end) t.

(** The runs of helper containers, in order. *)
Definition run_requests (t : list Event) : list RunRequest :=
  omap (fun ev => match ev with EvContainersRun r => Some r | _ => None end) t.

(** The images pulled, in order. *)
Definition pulled_names (t : list Event) : list string :=
  omap (fun ev => match ev with EvImagesPull n => Some n | _ => None end) t.

(** The number of [client.containers.list()] calls. *)
Definition enumerations (t : list Event) : nat :=
  length (omap (fun ev => match ev with EvContainersList => Some tt | _ => None end) t).

(** Push the projections of a trace through appended events. *)
Ltac trace_norm :=
  unfold checked_ids, run_requests, pulled_names, enumerations in *;
  rewrite ?omap_app, ?length_app; simpl; rewrite ?app_nil_r, ?Nat.add_0_r.

(** ** The policy table of the auto-update decision *)

Definition policy_rule (mode : string) (allow_list : list string)
    (name : string) (r : Outcome) : Prop :=
  is_local r = false /\ update_available r = true /\
  (mode = "all" \/ (mode = "selected" /\ name ∈ allow_list)).

#[global] Instance policy_rule_dec mode allow_list name r :
  Decision (policy_rule mode allow_list name r).
Proof. unfold policy_rule. apply _. Defined.

(** ** Self-exclusion *)

(** The two tests that make the loops skip a container: its short id
    occurs in the host name, or its image reference mentions the
    updater engine. *)
Definition excluded (current_hostname : string) (c : Container) : bool :=
  str_in (c_short_id c) current_hostname ||
  str_in "watchtower" (get_image_name 0 c).

Definition eligible (current_hostname : string) (c : Container) : Prop :=
  excluded current_hostname c = false.

#[global] Instance eligible_dec current_hostname c :
  Decision (eligible current_hostname c).
Proof. unfold eligible. apply _. Defined.

(** ** The scheduler *)

(** The document [load_config] returns for a given state of the file. *)
Definition stored_config (file : ConfigFile) : gmap string json :=
  match file with
  | FileJson (JObj doc) => doc ∪ DEFAULT_CONFIG
  | _ => DEFAULT_CONFIG
  end.

(** [config.get('check_mode', 'manual')] *)
Definition check_mode_of (config : gmap string json) : json :=
  config_get config "check_mode" (JStr "manual").

(** [config.get('check_interval', 60)] *)
Definition check_interval_of (config : gmap string json) : json :=
  config_get config "check_interval" (JInt 60).

(** The two tests of lines 160 and 164 together: [interval] is the
    result of [int(...)] on the configured interval. *)
Definition cycle_due (mode : json) (interval : PyResult Z) (now last_check_time : Q)
    : bool :=
  py_eq_str mode "background" &&
  match interval with
  | Ok minutes => interval_elapsed now last_check_time (minutes * 60)
  | Raise _ => false
  end.

(** [st] with one more event. *)
Definition after (st : State) (ev : Event) : State :=
  {| SERVER_CACHE := SERVER_CACHE st; trace := trace st ++ [ev] |}.

(** Between [st] and [st'] the daemon was not asked anything and the
    cache was not touched. *)
Definition no_runtime_activity (st st' : State) : Prop :=
  SERVER_CACHE st' = SERVER_CACHE st /\
  enumerations (trace st') = enumerations (trace st) /\
  checked_ids (trace st') = checked_ids (trace st) /\
  pulled_names (trace st') = pulled_names (trace st) /\
  run_requests (trace st') = run_requests (trace st).

(* ===================================================================== *)
(** ** Settings (lines 57-65 and 219-234)                                  *)
(* ===================================================================== *)

(** What [open(CONFIG_FILE, 'w')] followed by [json.dump] does to the
    file: the document is written, or an exception is raised and the
    file is left in some state (untouched, truncated, half written). *)
Inductive WriteAnswer : Type :=
  | Written
  | WriteRaises (e : exn) (left_behind : ConfigFile).

(** The file system: its answer to the writing of a document over the
    file as it is. *)
Definition FileSystem : Type := ConfigFile -> gmap string json -> WriteAnswer.

(** The world in which the configuration file is [file]. *)
Definition with_file (W : World) (file : ConfigFile) : World :=
  {| client_connected := client_connected W;
     containers_list := containers_list W;
     containers_get := containers_get W;
     images_pull := images_pull W;
     containers_run := containers_run W;
     gethostname := gethostname W;
     time_time := time_time W;
     datetime_now := datetime_now W;
     config_file := fun _ => file |}.

(** Lines 57-65.  The value is the boolean returned and the file as
    the call leaves it. *)
Definition save_config (fs : FileSystem) (config : gmap string json)
    (file : ConfigFile) (st : State) : bool * ConfigFile * State :=
  match fs file config with
  | Written => (true, FileJson (JObj config), st)
  | WriteRaises e left_behind =>
      (false, left_behind,
       snd (log Error ("Error saving config: " +:+ exn_msg e) st))
  end.

(** Lines 219-221. *)
Definition get_settings (W : World) : M (Response (gmap string json)) :=
  config <- load_config W ;;
  ret (Json config).

Definition allowed_keys : list string :=
  ["check_mode"; "check_interval"; "auto_update_mode"; "auto_update_containers"].

(** [v[key]] for a string [key].  The entry of a dict; a list or a
    string cannot be indexed by a string, other values not at all. *)
Definition py_getitem (v : json) (key : string) : PyResult json :=
  match v with
  | JObj m =>
      match m !! key with
      | Some x => Ok x
      | None => Raise (Exn OtherError key)
      end
  | JList _ | JStr _ => Raise (Exn TypeError "indices must be integers")
  | _ => Raise (Exn TypeError "object is not subscriptable")
  end.

(** Lines 228-230: the loop over the allowed keys. *)
Fixpoint apply_settings (keys : list string) (new_settings : json)
    (current_config : gmap string json) : PyResult (gmap string json) :=
  match keys with
  | [] => Ok current_config
  | key :: rest =>
      and_then (py_in key new_settings) (fun present =>
      if present then
        and_then (py_getitem new_settings key) (fun v =>
        apply_settings rest new_settings (<[key := v]> current_config))
      else apply_settings rest new_settings current_config)
  end.

(** Lines 223-234, for a request whose body parsed as the JSON value
    [new_settings].  The value is what the route returns or raises, and
    the configuration file as the call leaves it. *)
Definition update_settings (W : World) (fs : FileSystem) (new_settings : json)
    (file : ConfigFile) (st : State)
    : PyResult (Response (gmap string json)) * ConfigFile * State :=
  match load_config (with_file W file) st with
  | (Raise e, st1) => (Raise e, file, st1)
  | (Ok current_config, st1) =>
      match apply_settings allowed_keys new_settings current_config with
      | Raise e => (Raise e, file, st1)
      | Ok current_config' =>
          match save_config fs current_config' file st1 with
          | (true, file', st2) => (Ok (Json current_config'), file', st2)
          | (false, file', st2) =>
              (Ok (JsonError "Failed to save config" 500), file', st2)
          end
      end
  end.

(** A file system on which every write succeeds, and one on which no
    write does and the file stays as it was. *)
Definition writable : FileSystem := fun _ _ => Written.

Definition read_only : FileSystem :=
  fun file _ => WriteRaises (Exn OtherError "Read-only file system") file.

(** A configuration file asking for background checks with the given
    value as interval. *)
Definition background_with (interval : json) : ConfigFile :=
  FileJson (JObj (<["check_mode" := JStr "background"]>
                  (<["check_interval" := interval]> ∅))).

(** The host of [ticking_world] with the configuration file [file] and
    a daemon that answers the enumeration with [listed]. *)
Definition scheduled_world (file : ConfigFile)
    (listed : PyResult (list Container)) : World :=
  {| client_connected := true;
     containers_list := fun _ => listed;
     containers_get := fun _ _ => Ok web;
     images_pull := fun _ _ => Ok web_image_new;
     containers_run := fun _ _ => Ok tt;
     gethostname := fun _ => "host";
     time_time := fun t => inject_Z (1000 + slept t);
     datetime_now := fun _ => "2024-03-03T03:03:03";
     config_file := fun _ => file |}.

(** A host without connection to the daemon. *)
Definition disconnected_world (file : ConfigFile) : World :=
  {| client_connected := false;
     containers_list := fun _ => Ok [web];
     containers_get := fun _ _ => Ok web;
     images_pull := fun _ _ => Ok web_image_new;
     containers_run := fun _ _ => Ok tt;
     gethostname := fun _ => "host";
     time_time := fun t => inject_Z (1000 + slept t);
     datetime_now := fun _ => "2024-03-03T03:03:03";
     config_file := fun _ => file |}.

(** A configuration file with the given auto-update policy. *)
Definition policy_file (auto_update_mode : string) (names : list string)
    : ConfigFile :=
  FileJson (JObj (<["auto_update_mode" := JStr auto_update_mode]>
                  (<["auto_update_containers" := JList (JStr <$> names)]> ∅))).

Lemma try_pull_spec W image_name current_id st pv st' :
  try_pull W image_name current_id st = (Ok pv, st') ->
  SERVER_CACHE st' = SERVER_CACHE st /\
  (pv_is_local pv = true -> pv_update_available pv = false).
Proof.
  unfold try_pull. unfold_M. intros H. split_cases; by split.
Qed.

Lemma try_pull_cache W image_name current_id st :
  SERVER_CACHE (snd (try_pull W image_name current_id st)) = SERVER_CACHE st.
Proof.
  unfold try_pull. unfold_M. split_cases; done.
Qed.

Lemma perform_single_check_cache W container_id st res st' :
  perform_single_check W container_id st = (res, st') ->
  (forall r, res = Ok r ->
     exclusive r /\ SERVER_CACHE st' !! container_id = Some r) /\
  (cache_exclusive (SERVER_CACHE st) -> cache_exclusive (SERVER_CACHE st')).
Proof.
  unfold perform_single_check.
  intros H.
  unfold bind at 1 in H.
  destruct (client_call _ _ _ st) as [[container|e] st1] eqn:Hget.
  2:{ unfold_M. split_cases; split; try done. }
  assert (Hc1 : SERVER_CACHE st1 = SERVER_CACHE st).
  { unfold_M. split_cases; done. }
  unfold bind at 1, lift in H.
  destruct (c_image container 0) as [current_img|e]; simplify_eq.
  2:{ split; [done | by rewrite Hc1]. }
  case_match.
  { unfold raise in H. simplify_eq. split; [done | by rewrite Hc1]. }
  unfold bind at 1 in H.
  destruct (try_pull _ _ _ st1) as [[pv|e] st2] eqn:Hpull.
  - apply try_pull_spec in Hpull as [Hc2 Hex].
    unfold_M. simplify_eq. simpl. split.
    + intros r [= <-]. split; [exact Hex | by rewrite lookup_insert_eq].
    + intros Hinv k o. rewrite Hc2, Hc1.
      rewrite lookup_insert. case_decide; [|by apply Hinv].
      intros [= <-]. exact Hex.
  - simplify_eq. split; [done|].
    pose proof (try_pull_cache W (get_image_name 1 container) (img_id current_img) st1) as Hc2.
    rewrite Hpull in Hc2. simpl in Hc2. by rewrite Hc2, Hc1.
Qed.

(** C1.  Every outcome returned by [perform_single_check] satisfies
    [is_local = true -> update_available = false]; the outcome is the
    value written into the cache under the container's id; and the
    cache keeps the invariant whether the check returns or raises,
    whatever the daemon answers. *)
Theorem perform_single_check_exclusive W container_id st res st' :
  perform_single_check W container_id st = (res, st') ->
  (forall r, res = Ok r ->
     exclusive r /\ SERVER_CACHE st' !! container_id = Some r) /\
  (cache_exclusive (SERVER_CACHE st) -> cache_exclusive (SERVER_CACHE st')).
Proof. apply perform_single_check_cache. Qed.

Lemma perform_single_check_exclusive_witness :
  let p := perform_single_check
             (simple_world [web] (Raise (Exn NotFound "pull access denied")) (Ok tt)
                "host" FileMissing 0)
             (c_id web) empty_state in
  (forall r, fst p = Ok r ->
     exclusive r /\ SERVER_CACHE (snd p) !! c_id web = Some r) /\
  (cache_exclusive (SERVER_CACHE empty_state) ->
   cache_exclusive (SERVER_CACHE (snd p))).
Proof.
  intros p.
  apply (perform_single_check_exclusive
           (simple_world [web] (Raise (Exn NotFound "pull access denied")) (Ok tt)
              "host" FileMissing 0)
           (c_id web) empty_state (fst p) (snd p)).
  vm_compute. reflexivity.
Defined.

(** C2.  When the pull of a resolved image reference fails, a registry
    not-found or API error makes the check return normally with
    [is_local = true] and [update_available = false]; any other error
    of the pull leaves [perform_single_check] as it was raised. *)
Theorem perform_single_check_pull_failure W container_id st container img e :
  client_connected W = true ->
  containers_get W (trace st) container_id = Ok container ->
  c_image container 0 = Ok img ->
  truthy (get_image_name 1 container) = true ->
  get_image_name 1 container <> "unknown-image" ->
  images_pull W (trace st ++ [EvContainersGet container_id])
    (get_image_name 1 container) = Raise e ->
  (is_registry_error e = true ->
     exists r st', perform_single_check W container_id st = (Ok r, st') /\
                   is_local r = true /\ update_available r = false) /\
  (is_registry_error e = false ->
     exists st', perform_single_check W container_id st = (Raise e, st')).
Proof.
  intros Hconn Hget Himg Htruthy Hname Hpull.
  apply String.eqb_neq in Hname.
  unfold perform_single_check, try_pull. unfold_M.
  rewrite Hconn. simpl. rewrite Hget, Himg, Htruthy, Hname. simpl.
  rewrite Hpull.
  split; intros ->; simpl; eauto.
Qed.

Lemma perform_single_check_pull_failure_witness :
  (exists r st',
     perform_single_check
       (simple_world [web] (Raise (Exn NotFound "pull access denied")) (Ok tt)
          "host" FileMissing 0)
       (c_id web) empty_state = (Ok r, st') /\
     is_local r = true /\ update_available r = false) /\
  (exists st',
     perform_single_check
       (simple_world [web] (Raise (Exn OtherError "connection reset")) (Ok tt)
          "host" FileMissing 0)
       (c_id web) empty_state = (Raise (Exn OtherError "connection reset"), st')).
Proof.
  split.
  - apply (perform_single_check_pull_failure
             (simple_world [web] (Raise (Exn NotFound "pull access denied")) (Ok tt)
                "host" FileMissing 0)
             (c_id web) empty_state web web_image (Exn NotFound "pull access denied"));
      try reflexivity.
    vm_compute. discriminate.
  - apply (perform_single_check_pull_failure
             (simple_world [web] (Raise (Exn OtherError "connection reset")) (Ok tt)
                "host" FileMissing 0)
             (c_id web) empty_state web web_image (Exn OtherError "connection reset"));
      try reflexivity.
    vm_compute. discriminate.
Defined.



(** ** Traces of the checker and of the dispatcher *)

Lemma perform_single_check_trace W container_id st :
  let st' := snd (perform_single_check W container_id st) in
  checked_ids (trace st') =
    checked_ids (trace st) ++ (if client_connected W then [container_id] else []) /\
  run_requests (trace st') = run_requests (trace st) /\
  enumerations (trace st') = enumerations (trace st).
Proof.
  unfold perform_single_check, try_pull. unfold_M.
  split_cases; trace_norm; done.
Qed.

Lemma perform_single_check_connected W container_id st r st' :
  perform_single_check W container_id st = (Ok r, st') ->
  client_connected W = true.
Proof.
  unfold perform_single_check. unfold_M. intros H. split_cases; done.
Qed.

Lemma trigger_updater_engine_trace W name st :
  let st' := snd (trigger_updater_engine W name st) in
  checked_ids (trace st') = checked_ids (trace st) /\
  run_requests (trace st') =
    run_requests (trace st) ++
    (if client_connected W then [updater_request name] else []) /\
  enumerations (trace st') = enumerations (trace st) /\
  SERVER_CACHE st' = SERVER_CACHE st.
Proof.
  unfold trigger_updater_engine. unfold_M.
  split_cases; trace_norm; done.
Qed.

(** ** Auto-update policy *)

Lemma allow_list_membership name (allow_list : list string) :
  existsb (fun x => py_eq_str x name) (JStr <$> allow_list) =
  bool_decide (name ∈ allow_list).
Proof.
  induction allow_list as [|a l IH]; [done|].
  cbn [fmap list_fmap existsb py_eq_str].
  - rewrite IH. destruct (String.eqb_spec a name) as [->|Hne]; simpl.
    + symmetry. apply bool_decide_eq_true. left.
    + apply bool_decide_ext. rewrite elem_of_cons. intuition congruence.
Qed.

Lemma dispatch_decision_rule mode allow_list name r :
  dispatch_decision (JStr mode) (JList (JStr <$> allow_list)) name r =
  Ok (bool_decide (policy_rule mode allow_list name r)).
Proof.
  unfold dispatch_decision, should_update, py_in.
  rewrite allow_list_membership. unfold py_eq_str.
  assert (Hno : forall P : Prop, ~ P -> forall `{Decision P},
            Ok false = Ok (bool_decide P)).
  { intros P HP ?. by rewrite bool_decide_eq_false_2. }
  assert (Hyes : forall P : Prop, P -> forall `{Decision P},
            Ok true = Ok (bool_decide P)).
  { intros P HP ?. by rewrite bool_decide_eq_true_2. }
  destruct (update_available r) eqn:Hu, (is_local r) eqn:Hl; simpl;
    try (apply Hno; unfold policy_rule; intros (? & ? & ?); congruence).
  destruct (String.eqb_spec mode "all") as [->|Hall].
  { apply Hyes. unfold policy_rule. auto. }
  destruct (String.eqb_spec mode "selected") as [->|Hsel].
  - f_equal. apply bool_decide_ext. unfold policy_rule. intuition congruence.
  - apply Hno. unfold policy_rule. intuition congruence.
Qed.

(** C3.  With a mode and an allow-list of names, the decision of lines
    182-189 is the policy table: dispatch exactly when the outcome has
    [is_local = false] and [update_available = true] and the mode is
    ['all'], or ['selected'] with the container's name in the list.
    Processing a container in the background cycle runs the updater
    for it exactly when its check returned an outcome for which the
    table says so, and runs nothing otherwise. *)
Theorem auto_update_policy_table mode allow_list :
  (forall name r,
     dispatch_decision (JStr mode) (JList (JStr <$> allow_list)) name r =
     Ok (bool_decide (policy_rule mode allow_list name r))) /\
  (forall W c st,
     exists st',
       process_container W (JStr mode) (JList (JStr <$> allow_list)) c st =
         (Ok tt, st') /\
       run_requests (trace st') =
         run_requests (trace st) ++
         match fst (perform_single_check W (c_id c) st) with
         | Ok r =>
             if bool_decide (policy_rule mode allow_list (c_name c) r)
             then [updater_request (c_name c)] else []
         | Raise _ => []
         end).
Proof.
  split; [apply dispatch_decision_rule|].
  intros W c st. unfold process_container, check_and_update.
  unfold try_except, bind at 1.
  pose proof (perform_single_check_trace W (c_id c) st) as (_ & Hruns & _).
  destruct (perform_single_check W (c_id c) st) as [[r|e] st1] eqn:Hcheck;
    simpl in *.
  2:{ unfold_M. eexists; split; [done|]. simpl. trace_norm. by rewrite Hruns. }
  apply perform_single_check_connected in Hcheck as Hconn.
  unfold bind at 1, lift. rewrite dispatch_decision_rule.
  case_bool_decide.
  - unfold bind at 1. unfold log, emit at 1. unfold bind at 1.
    match goal with |- context [trigger_updater_engine W ?n ?s] =>
      pose proof (trigger_updater_engine_trace W n s) as (_ & Hr & _);
      destruct (trigger_updater_engine W n s) as [[[]|e] st2]
    end; simpl in *; rewrite Hconn in Hr.
    + unfold_M. eexists; split; [done|]. simpl. rewrite Hr. trace_norm.
      by rewrite Hruns.
    + unfold_M. eexists; split; [done|]. simpl. trace_norm. rewrite Hr.
      trace_norm. by rewrite Hruns.
  - unfold_M. eexists; split; [done|]. by rewrite app_nil_r.
Qed.

(** ** Unresolved image references *)

(** The resolver has two markers: ["unknown-image"] when neither a tag
    nor a configured reference exists, and ["unknown"] when a read
    raised. *)
Lemma get_image_name_cases k c :
  (exists name, get_image_name_body k c = Ok name /\ get_image_name k c = name) \/
  (exists e, get_image_name_body k c = Raise e /\ get_image_name k c = "unknown").
Proof.
  unfold get_image_name.
  destruct (get_image_name_body k c); eauto.
Qed.

(** The guard of line 89 stops the check before any pull when the
    reference is empty or ["unknown-image"]. *)
Lemma perform_single_check_guard W container_id st container img :
  client_connected W = true ->
  containers_get W (trace st) container_id = Ok container ->
  c_image container 0 = Ok img ->
  get_image_name 1 container = EmptyString \/
  get_image_name 1 container = "unknown-image" ->
  exists st',
    perform_single_check W container_id st =
      (Raise (Exn ValueError "Could not determine image name"), st') /\
    pulled_names (trace st') = pulled_names (trace st).
Proof.
  intros Hconn Hget Himg Hname.
  unfold perform_single_check. unfold_M.
  rewrite Hconn. simpl. rewrite Hget, Himg.
  destruct Hname as [-> | ->]; simpl; eexists; (split; [done|]);
    simpl; trace_norm; done.
Qed.

(** A failure inside the resolver yields ["unknown"], which passes the
    guard: the check goes on and pulls an image called ["unknown"]. *)
Lemma perform_single_check_after_resolver_failure W container_id st container img e :
  client_connected W = true ->
  containers_get W (trace st) container_id = Ok container ->
  c_image container 0 = Ok img ->
  get_image_name_body 1 container = Raise e ->
  pulled_names (trace (snd (perform_single_check W container_id st))) =
    pulled_names (trace st) ++ ["unknown"].
Proof.
  intros Hconn Hget Himg Hbody.
  unfold perform_single_check, try_pull, get_image_name. unfold_M.
  rewrite Hconn. simpl. rewrite Hget, Himg, Hbody. simpl.
  split_cases; trace_norm; done.
Qed.

(** C4 (evaluation of the code).  The second read of [container.image]
    fails for [flaky]: the resolver returns ["unknown"], not the marker
    ["unknown-image"] that [perform_single_check] tests for, so the
    check pulls ["unknown"] and, the registry not knowing it, returns
    an outcome with [is_local = true] instead of failing.  The same
    happens for [untagged], whose configuration attribute is not a
    dict. *)
Theorem unknown_marker_reaches_pull :
  let W := simple_world [flaky; untagged]
             (Raise (Exn NotFound "pull access denied for unknown"))
             (Ok tt) "host" FileMissing 0 in
  get_image_name 1 flaky = "unknown" /\
  get_image_name 1 untagged = "unknown" /\
  (exists r st',
     perform_single_check W (c_id flaky) empty_state = (Ok r, st') /\
     pulled_names (trace st') = ["unknown"] /\ is_local r = true) /\
  (exists r st',
     perform_single_check W (c_id untagged) empty_state = (Ok r, st') /\
     pulled_names (trace st') = ["unknown"] /\ is_local r = true).
Proof.
  repeat split; try reflexivity.
  - eexists _, _. repeat split; vm_compute; reflexivity.
  - eexists _, _. repeat split; vm_compute; reflexivity.
Qed.

(** ** Cache eviction *)

Lemma run_update_cache W name st :
  SERVER_CACHE (snd (run_update W name st)) = SERVER_CACHE st.
Proof.
  unfold run_update.
  destruct (client_connected W) eqn:Hconn; simpl; [|done].
  unfold try_except, bind at 1.
  pose proof (trigger_updater_engine_trace W name st) as (_ & _ & _ & Hcache).
  destruct (trigger_updater_engine W name st) as [[[]|e] st1]; simpl in *; done.
Qed.

(** What [process_container] does once the check of [c] has returned
    an outcome that the policy sends to the updater. *)
Lemma process_container_dispatch W auto_up_mode auto_up_list c st r st1 :
  perform_single_check W (c_id c) st = (Ok r, st1) ->
  dispatch_decision auto_up_mode auto_up_list (c_name c) r = Ok true ->
  process_container W auto_up_mode auto_up_list c st =
  match trigger_updater_engine W (c_name c)
          {| SERVER_CACHE := SERVER_CACHE st1;
             trace := trace st1 ++
                      [EvLog Info ("Auto-Update triggered for " +:+ c_name c)] |}
  with
  | (Ok _, st2) =>
      (Ok tt, {| SERVER_CACHE := delete (c_id c) (SERVER_CACHE st2);
                 trace := trace st2 |})
  | (Raise e, st2) =>
      (Ok tt, {| SERVER_CACHE := SERVER_CACHE st2;
                 trace := trace st2 ++
                          [EvLog Warning ("Failed to process " +:+ c_name c +:+
                                          ": " +:+ exn_msg e)] |})
  end.
Proof.
  intros Hcheck Hdec.
  unfold process_container. unfold_M. rewrite Hcheck, Hdec.
  by destruct (trigger_updater_engine _ _ _) as [[[]|e] st2].
Qed.

(** In the background cycle a successful run removes the cache entry of
    [c], and a failed run leaves the cache as the check wrote it. *)
Lemma process_container_eviction W auto_up_mode auto_up_list c st r st1 :
  perform_single_check W (c_id c) st = (Ok r, st1) ->
  dispatch_decision auto_up_mode auto_up_list (c_name c) r = Ok true ->
  let started :=
    {| SERVER_CACHE := SERVER_CACHE st1;
       trace := trace st1 ++ [EvLog Info ("Auto-Update triggered for " +:+ c_name c)] |} in
  let st' := snd (process_container W auto_up_mode auto_up_list c st) in
  match fst (trigger_updater_engine W (c_name c) started) with
  | Ok _ => SERVER_CACHE st' !! c_id c = None
  | Raise _ =>
      SERVER_CACHE st' = SERVER_CACHE st1 /\
      SERVER_CACHE st' !! c_id c = Some r
  end.
Proof.
  intros Hcheck Hdec started st'. subst st'.
  assert (Hentry : SERVER_CACHE st1 !! c_id c = Some r).
  { by apply (perform_single_check_cache W (c_id c) st (Ok r) st1). }
  rewrite (process_container_dispatch _ _ _ _ _ _ _ Hcheck Hdec).
  fold started.
  pose proof (trigger_updater_engine_trace W (c_name c) started) as (_ & _ & _ & Hcache).
  destruct (trigger_updater_engine W (c_name c) started) as [[[]|e] st2];
    simpl in *.
  - apply lookup_delete_eq.
  - by rewrite Hcache.
Qed.

(** C5 (evaluation of the code).  The synchronous route: the updater
    runs and [run_update] answers with success, yet the cache entry of
    the updated container is still there. *)
Theorem run_update_keeps_cache_entry :
  let W := simple_world [web] (Ok web_image_new) (Ok tt) "host" FileMissing 0 in
  exists st',
    run_update W (c_name web) checked_state =
      (Ok (Json "Update triggered for web"), st') /\
    run_requests (trace st') = [updater_request "web"] /\
    SERVER_CACHE st' !! c_id web = Some stale_outcome.
Proof.
  eexists. repeat split; vm_compute; reflexivity.
Qed.

(** ** Loading the configuration *)

(** The four recognised fields and their defaults. *)
Lemma DEFAULT_CONFIG_fields :
  DEFAULT_CONFIG !! "check_mode" = Some (JStr "manual") /\
  DEFAULT_CONFIG !! "check_interval" = Some (JInt 60) /\
  DEFAULT_CONFIG !! "auto_update_mode" = Some (JStr "off") /\
  DEFAULT_CONFIG !! "auto_update_containers" = Some (JList []) /\
  dom DEFAULT_CONFIG =
    ({["check_mode"; "check_interval"; "auto_update_mode";
       "auto_update_containers"]} : gset string).
Proof.
  repeat split; reflexivity.
Qed.

(** [load_config] always returns; the state changes by at most one log
    line, and the document returned is the stored object laid over the
    defaults, or the defaults alone. *)
Lemma load_config_value W st :
  exists st',
    load_config W st =
      (Ok (stored_config (config_file W (trace st))), st') /\
    SERVER_CACHE st' = SERVER_CACHE st /\
    checked_ids (trace st') = checked_ids (trace st) /\
    run_requests (trace st') = run_requests (trace st) /\
    pulled_names (trace st') = pulled_names (trace st) /\
    enumerations (trace st') = enumerations (trace st).
Proof.
  unfold load_config, read_json, merge_over_defaults, stored_config. unfold_M.
  destruct (config_file W (trace st)) as [|e|[]]; simpl;
    eexists; (split; [reflexivity|]); simpl; trace_norm; done.
Qed.

(** C9 (what the code does with unknown fields).  A stored document
    with a field ["theme"] that the program does not know: the field is
    in the loaded configuration. *)
Lemma load_config_keeps_unknown_field :
  let W := simple_world [] (Ok web_image) (Ok tt) "host"
             (FileJson (JObj {[ "theme" := JStr "dark" ]})) 0 in
  exists config st',
    load_config W empty_state = (Ok config, st') /\
    DEFAULT_CONFIG !! "theme" = None /\
    config !! "theme" = Some (JStr "dark").
Proof.
  eexists _, _. repeat split.
Qed.

(** C9, amended.  [load_config] never raises.  When the file holds a
    JSON object, every field stored in it, recognised or not, is in
    the result with its stored value, and every field absent from it
    has its default when it is one of the four recognised fields and
    is absent otherwise.  When the file is missing, cannot be read or
    parsed, or holds something that is not an object, the result is
    the default document. *)
Theorem load_config_defaults_under_stored W st :
  exists config st',
    load_config W st = (Ok config, st') /\
    match config_file W (trace st) with
    | FileJson (JObj doc) =>
        (forall k v, doc !! k = Some v -> config !! k = Some v) /\
        (forall k, doc !! k = None -> config !! k = DEFAULT_CONFIG !! k)
    | _ => config = DEFAULT_CONFIG
    end.
Proof.
  destruct (load_config_value W st) as (st' & Hload & _).
  eexists _, st'. split; [exact Hload|]. unfold stored_config.
  destruct (config_file W (trace st)) as [|e|[]]; try reflexivity.
  split.
  - intros k v Hk. by apply lookup_union_Some_l.
  - intros k Hk. by apply lookup_union_r.
Qed.

(** ** One background cycle *)

Lemma process_container_trace W auto_up_mode auto_up_list c st :
  exists st',
    process_container W auto_up_mode auto_up_list c st = (Ok tt, st') /\
    checked_ids (trace st') =
      checked_ids (trace st) ++ (if client_connected W then [c_id c] else []) /\
    enumerations (trace st') = enumerations (trace st).
Proof.
  unfold process_container, check_and_update.
  unfold try_except, bind at 1.
  pose proof (perform_single_check_trace W (c_id c) st) as (Hids & _ & Henum).
  destruct (perform_single_check W (c_id c) st) as [[r|e] st1]; simpl in *.
  2:{ unfold_M. eexists; split; [done|]. simpl. trace_norm. by rewrite Hids, Henum. }
  unfold bind at 1, lift.
  destruct (dispatch_decision _ _ _ _) as [[|]|e].
  - unfold bind at 1. unfold log, emit at 1. unfold bind at 1.
    match goal with |- context [trigger_updater_engine W ?n ?s] =>
      pose proof (trigger_updater_engine_trace W n s) as (Hi & _ & He & _);
      destruct (trigger_updater_engine W n s) as [[[]|e] st2]
    end; simpl in *; unfold_M; (eexists; split; [done|]); simpl;
      revert Hi He; trace_norm; intros -> ->; by rewrite Hids, Henum.
  - unfold_M. eexists; split; [done|]. by rewrite Hids, Henum.
  - unfold_M. eexists; split; [done|]. simpl. trace_norm. by rewrite Hids, Henum.
Qed.

Lemma cycle_body_excluded W current_hostname auto_up_mode auto_up_list c st :
  excluded current_hostname c = true ->
  cycle_body W current_hostname auto_up_mode auto_up_list c st = (Ok tt, st).
Proof.
  unfold excluded, cycle_body. intros H.
  destruct (str_in (c_short_id c) current_hostname); [done|].
  simpl in H. by rewrite H.
Qed.

Lemma cycle_body_eligible W current_hostname auto_up_mode auto_up_list c :
  eligible current_hostname c ->
  cycle_body W current_hostname auto_up_mode auto_up_list c =
  process_container W auto_up_mode auto_up_list c.
Proof.
  unfold eligible, excluded, cycle_body. intros H.
  apply orb_false_iff in H as [-> ->]. done.
Qed.

(** The loop visits the containers in order, skips the excluded ones
    and is never left by an exception. *)
Lemma for_each_cycle_body W current_hostname auto_up_mode auto_up_list cs st :
  exists st',
    for_each (cycle_body W current_hostname auto_up_mode auto_up_list) cs st =
      (Ok tt, st') /\
    checked_ids (trace st') =
      checked_ids (trace st) ++
      (if client_connected W
       then c_id <$> filter (eligible current_hostname) cs else []) /\
    enumerations (trace st') = enumerations (trace st).
Proof.
  revert st. induction cs as [|c cs IH]; intros st; simpl.
  { unfold ret. eexists; split; [done|].
    split; [|done]. destruct (client_connected W); by rewrite app_nil_r. }
  unfold bind at 1.
  destruct (decide (eligible current_hostname c)) as [Hel|Hex].
  - rewrite (cycle_body_eligible _ _ _ _ _ Hel).
    destruct (process_container_trace W auto_up_mode auto_up_list c st)
      as (st1 & -> & Hids & Henum).
    destruct (IH st1) as (st' & -> & Hids' & Henum').
    eexists; split; [done|]. rewrite Hids', Henum', Hids, Henum.
    split; [|done]. rewrite filter_cons_True by done.
    destruct (client_connected W); simpl; by rewrite <- ?app_assoc.
  - unfold eligible in Hex. apply not_false_is_true in Hex.
    rewrite (cycle_body_excluded _ _ _ _ _ _ Hex).
    destruct (IH st) as (st' & -> & Hids' & Henum').
    eexists; split; [done|]. rewrite Hids', Henum'.
    split; [|done]. rewrite filter_cons_False; [done|].
    unfold eligible. by rewrite Hex.
Qed.

(** The whole cycle once the enumeration has answered. *)
Lemma check_cycle_completes W config st cs :
  client_connected W = true ->
  containers_list W (trace st) = Ok cs ->
  exists t_end,
    check_cycle W config st =
      (Ok (time_time W t_end),
       {| SERVER_CACHE :=
            SERVER_CACHE
              (snd (for_each
                      (cycle_body W (gethostname W (trace st ++ [EvContainersList]))
                         (config_get config "auto_update_mode" (JStr "off"))
                         (config_get config "auto_update_containers" (JList [])))
                      cs
                      {| SERVER_CACHE := SERVER_CACHE st;
                         trace := trace st ++ [EvContainersList] |}));
          trace := t_end ++ [EvLog Info "Background cycle finished."] |}) /\
    checked_ids t_end =
      checked_ids (trace st) ++
      (c_id <$> filter (eligible (gethostname W (trace st ++ [EvContainersList]))) cs) /\
    enumerations t_end = S (enumerations (trace st)).
Proof.
  intros Hconn Hlist.
  unfold check_cycle. unfold bind at 1. unfold client_call, ask.
  rewrite Hconn, Hlist.
  unfold bind at 1, observe at 1. simpl.
  unfold bind at 1.
  match goal with |- context [for_each ?b cs ?s] =>
    destruct (for_each_cycle_body W
                (gethostname W (trace st ++ [EvContainersList]))
                (config_get config "auto_update_mode" (JStr "off"))
                (config_get config "auto_update_containers" (JList [])) cs s)
      as (st' & Hloop & Hids & Henum)
  end.
  rewrite Hloop. unfold_M. simpl.
  exists (trace st'). split; [done|].
  rewrite Hids, Henum, Hconn. simpl. trace_norm. split; [done|lia].
Qed.

(** C7.  Once the enumeration of a cycle has answered, the cycle runs
    to its end whatever happens to the single containers: every
    container that is not excluded is checked, in the order of the
    enumeration, also after one whose check or update failed.  A
    failure of the check or of the dispatch for one container ends in
    a warning in the log, and the processing of that container
    returns normally. *)
Theorem cycle_survives_container_failures W config st cs :
  client_connected W = true ->
  containers_list W (trace st) = Ok cs ->
  (exists t st',
     check_cycle W config st = (Ok t, st') /\
     checked_ids (trace st') =
       checked_ids (trace st) ++
       (c_id <$> filter (eligible (gethostname W (trace st ++ [EvContainersList]))) cs)) /\
  (forall auto_up_mode auto_up_list c s e s1,
     check_and_update W auto_up_mode auto_up_list c s = (Raise e, s1) ->
     process_container W auto_up_mode auto_up_list c s =
       (Ok tt,
        {| SERVER_CACHE := SERVER_CACHE s1;
           trace := trace s1 ++
                    [EvLog Warning ("Failed to process " +:+ c_name c +:+ ": "
                                    +:+ exn_msg e)] |})).
Proof.
  intros Hconn Hlist. split.
  - destruct (check_cycle_completes W config st cs Hconn Hlist)
      as (t_end & Hcycle & Hids & _).
    eexists _, _. split; [exact Hcycle|].
    simpl. trace_norm. exact Hids.
  - intros m l c s e s1 Hbody.
    unfold process_container, try_except. rewrite Hbody. done.
Qed.

Lemma cycle_survives_container_failures_witness :
  let W := simple_world [broken; web] (Ok web_image) (Ok tt) "host" FileMissing 0 in
  (exists t st',
     check_cycle W DEFAULT_CONFIG empty_state = (Ok t, st') /\
     checked_ids (trace st') =
       checked_ids (trace empty_state) ++
       (c_id <$> filter (eligible (gethostname W (trace empty_state ++ [EvContainersList])))
                   [broken; web])) /\
  (forall auto_up_mode auto_up_list c s e s1,
     check_and_update W auto_up_mode auto_up_list c s = (Raise e, s1) ->
     process_container W auto_up_mode auto_up_list c s =
       (Ok tt,
        {| SERVER_CACHE := SERVER_CACHE s1;
           trace := trace s1 ++
                    [EvLog Warning ("Failed to process " +:+ c_name c +:+ ": "
                                    +:+ exn_msg e)] |})).
Proof.
  intros W.
  apply (cycle_survives_container_failures W DEFAULT_CONFIG empty_state [broken; web]);
    reflexivity.
Defined.

(** The check of [broken] raises, and [web] is checked after it. *)
Example cycle_after_failure :
  let W := simple_world [broken; web] (Ok web_image) (Ok tt) "host" FileMissing 0 in
  fst (perform_single_check W (c_id broken) empty_state) =
    Raise (Exn ImageNotFound "No such image") /\
  checked_ids (trace (snd (check_cycle W DEFAULT_CONFIG empty_state))) =
    [c_id broken; c_id web].
Proof. split; vm_compute; reflexivity. Qed.

(** ** Self-exclusion *)

Lemma append_cons a s t : String a s +:+ t = String a (s +:+ t).
Proof. reflexivity. Qed.

Lemma append_nil t : EmptyString +:+ t = t.
Proof. reflexivity. Qed.

Lemma prefix_app needle hay :
  String.prefix needle hay = true <-> exists post, hay = needle +:+ post.
Proof.
  revert hay. induction needle as [|a n IH]; intros hay.
  - split; [intros _; by exists hay | by destruct hay].
  - destruct hay as [|b h]; simpl.
    + split; [done | intros [post Hp]; by rewrite append_cons in Hp].
    + destruct (ascii_dec a b) as [->|Hne].
      * rewrite IH. split; intros [post Hp]; exists post;
          rewrite append_cons in *; congruence.
      * split; [done | intros [post Hp]; rewrite append_cons in Hp; congruence].
Qed.

(** [str_in] is the substring test. *)
Lemma str_in_substring needle hay :
  str_in needle hay = true <-> exists pre post, hay = pre +:+ needle +:+ post.
Proof.
  induction hay as [|b h IH]; cbn [str_in].
  - destruct (String.prefix needle EmptyString) eqn:Hp.
    + apply prefix_app in Hp as [post Hp]. split; [|done].
      intros _. by exists EmptyString, post.
    + split; [done|]. intros (pre & post & Heq).
      destruct pre; [|by rewrite append_cons in Heq].
      rewrite append_nil in Heq.
      assert (String.prefix needle EmptyString = true) by (apply prefix_app; eauto).
      congruence.
  - destruct (String.prefix needle (String b h)) eqn:Hp.
    + apply prefix_app in Hp as [post Hp]. split; [|done].
      intros _. by exists EmptyString, post.
    + rewrite IH. split.
      * intros (pre & post & ->). by exists (String b pre), post.
      * intros (pre & post & Heq). destruct pre as [|a pre].
        -- rewrite append_nil in Heq.
           assert (String.prefix needle (String b h) = true)
             by (apply prefix_app; eauto).
           congruence.
        -- rewrite append_cons in Heq. injection Heq as -> ->. eauto.
Qed.

Lemma list_containers_loop_value current_hostname cs acc st :
  list_containers_loop current_hostname cs acc st =
  (Ok (acc ++ ((fun c => container_data (SERVER_CACHE st) c (get_image_name 0 c))
               <$> filter (eligible current_hostname) cs)), st).
Proof.
  revert acc. induction cs as [|c cs IH]; intros acc; simpl.
  { by rewrite app_nil_r. }
  unfold bind, list_containers_body, try_except.
  destruct (decide (eligible current_hostname c)) as [Hel|Hex].
  - rewrite filter_cons_True by done.
    unfold eligible, excluded in Hel. apply orb_false_iff in Hel as [-> ->].
    rewrite IH. by rewrite <- app_assoc.
  - rewrite filter_cons_False by done.
    unfold eligible in Hex. apply not_false_is_true in Hex.
    unfold excluded in Hex.
    destruct (str_in (c_short_id c) current_hostname); simpl in *.
    + apply IH.
    + rewrite Hex. apply IH.
Qed.

(** C8.  The list returned by [list_containers] holds exactly the
    enumerated containers that are not excluded, and the background
    cycle checks exactly those: a container whose short id occurs in
    the host name, or whose image reference contains the updater's
    name, is left out of both, and the loop of the cycle does nothing
    at all for it. *)
Theorem self_and_updater_excluded W config st cs :
  client_connected W = true ->
  containers_list W (trace st) = Ok cs ->
  let host := gethostname W (trace st) in
  let host' := gethostname W (trace st ++ [EvContainersList]) in
  (exists listed st',
     list_containers W st = (Ok (Json listed), st') /\
     listed = (fun c => container_data (SERVER_CACHE st) c (get_image_name 0 c))
              <$> filter (eligible host) cs /\
     Forall (fun d => str_in (cd_short_id d) host = false /\
                      str_in "watchtower" (cd_image d) = false) listed) /\
  (exists t st',
     check_cycle W config st = (Ok t, st') /\
     checked_ids (trace st') =
       checked_ids (trace st) ++ (c_id <$> filter (eligible host') cs)) /\
  (forall c,
     str_in (c_short_id c) host' = true \/
     str_in "watchtower" (get_image_name 0 c) = true ->
     ~ eligible host' c /\
     forall auto_up_mode auto_up_list s,
       cycle_body W host' auto_up_mode auto_up_list c s = (Ok tt, s)).
Proof.
  intros Hconn Hlist host host'. repeat split.
  - eexists _, _. split; [|split; [reflexivity|]].
    + unfold list_containers. rewrite Hconn. simpl.
      unfold bind at 1, observe. unfold bind at 1, attempt, client_call, ask.
      rewrite Hconn, Hlist. unfold bind at 1.
      rewrite list_containers_loop_value. simpl. done.
    + apply Forall_fmap, Forall_forall. intros c Hc.
      apply list_elem_of_filter in Hc as [Hel _]. simpl.
      by apply orb_false_iff in Hel.
  - destruct (check_cycle_completes W config st cs Hconn Hlist)
      as (t_end & Hcycle & Hids & _).
    eexists _, _. split; [exact Hcycle|].
    simpl. trace_norm. exact Hids.
  - unfold eligible, excluded. destruct H as [-> | ->]; simpl;
      [|rewrite orb_true_r]; done.
  - intros m l s. apply cycle_body_excluded. unfold excluded.
    destruct H as [-> | ->]; simpl; [|rewrite orb_true_r]; done.
Qed.

Lemma self_and_updater_excluded_witness :
  let W := simple_world [web; watchtower; broken] (Ok web_image) (Ok tt)
             "555544443333" FileMissing 0 in
  exists listed st' t st'',
    list_containers W checked_state = (Ok (Json listed), st') /\
    cd_name <$> listed = ["web"] /\
    check_cycle W DEFAULT_CONFIG checked_state = (Ok t, st'') /\
    checked_ids (trace st'') = [c_id web].
Proof.
  intros W.
  destruct (self_and_updater_excluded W DEFAULT_CONFIG checked_state
              [web; watchtower; broken] eq_refl eq_refl)
    as ((listed & st' & Hl & -> & _) & (t & st'' & Hc & Hids) & _).
  eexists _, st', t, st''. split; [exact Hl|]. split; [reflexivity|].
  split; [exact Hc|]. rewrite Hids. reflexivity.
Defined.

(** ** The background worker *)

Lemma py_eq_str_true v s : py_eq_str v s = true <-> v = JStr s.
Proof.
  destruct v; simpl; try (split; [done | discriminate]).
  rewrite String.eqb_eq. split; congruence.
Qed.

Lemma interval_elapsed_spec now last_check_time interval_seconds :
  interval_elapsed now last_check_time interval_seconds = true <->
  (inject_Z interval_seconds <= now - last_check_time)%Q.
Proof. apply Qle_bool_iff. Qed.

Lemma interval_elapsed_not now last_check_time interval_seconds :
  interval_elapsed now last_check_time interval_seconds = false <->
  (now - last_check_time < inject_Z interval_seconds)%Q.
Proof.
  rewrite <- not_true_iff_false, interval_elapsed_spec.
  split; [apply Qnot_le_lt | apply Qlt_not_le].
Qed.

Lemma load_config_quiet W st config st0 :
  load_config W st = (Ok config, st0) ->
  config = stored_config (config_file W (trace st)) /\
  no_runtime_activity st st0.
Proof.
  intros Hload.
  destruct (load_config_value W st) as (st1 & Hv & Hq).
  rewrite Hload in Hv. injection Hv as -> ->. split; [done|].
  unfold no_runtime_activity. tauto.
Qed.

Section SchedulerProperties.

Variable int_of_str : string -> PyResult Z.

(** One pass of the loop, case by case. *)
Lemma worker_iteration_cases W last_check_time st config st0 :
  load_config W st = (Ok config, st0) ->
  worker_iteration int_of_str W last_check_time st =
  if py_eq_str (check_mode_of config) "background" then
    match py_int int_of_str (check_interval_of config) with
    | Raise e =>
        (Ok last_check_time,
         after (after st0 (EvLog Error ("Critical worker error: " +:+ exn_msg e)))
               (EvSleep 60))
    | Ok minutes =>
        if interval_elapsed (time_time W (trace st0)) last_check_time (minutes * 60)
        then
          match check_cycle W config
                  (after st0 (EvLog Info "Background schedule: Starting check cycle..."))
          with
          | (Ok t, s) => (Ok t, after s (EvSleep 10))
          | (Raise e, s) =>
              (Ok last_check_time,
               after (after s (EvLog Error ("Error during container loop: "
                                            +:+ exn_msg e)))
                     (EvSleep 10))
          end
        else (Ok last_check_time, after st0 (EvSleep 10))
    end
  else (Ok last_check_time, after st0 (EvSleep 10)).
Proof.
  intros Hload.
  unfold worker_iteration, check_mode_of, check_interval_of, after.
  unfold try_except at 1, bind at 1. rewrite Hload.
  destruct (py_eq_str _ "background"); [|by unfold_M].
  unfold bind at 1, bind at 1, lift.
  destruct (py_int _ _) as [minutes|e]; [|by unfold_M].
  unfold bind at 1, observe.
  destruct (interval_elapsed _ _ _); [|by unfold_M].
  unfold bind at 1, log, emit at 1. unfold try_except at 1.
  destruct (check_cycle _ _ _) as [[t|e] s]; by unfold_M.
Qed.

(** A mode other than ['background']: the pass loads the configuration,
    sleeps ten seconds and does nothing else. *)
Lemma worker_iteration_idle W last_check_time st config st0 :
  load_config W st = (Ok config, st0) ->
  check_mode_of config <> JStr "background" ->
  worker_iteration int_of_str W last_check_time st =
    (Ok last_check_time, after st0 (EvSleep 10)) /\
  no_runtime_activity st (after st0 (EvSleep 10)).
Proof.
  intros Hload Hmode.
  rewrite (worker_iteration_cases _ _ _ _ _ Hload).
  destruct (py_eq_str (check_mode_of config) "background") eqn:Heq.
  { by apply py_eq_str_true in Heq. }
  split; [done|].
  apply load_config_quiet in Hload as [_ (Hc & He & Hi & Hp & Hr)].
  unfold no_runtime_activity, after. simpl. trace_norm.
  by rewrite Hc, He, Hi, Hp, Hr.
Qed.

Lemma worker_loop_idle W :
  (forall t, check_mode_of (stored_config (config_file W t)) <> JStr "background") ->
  forall n last_check_time st,
    exists st',
      worker_loop int_of_str W n last_check_time st = (Ok last_check_time, st') /\
      no_runtime_activity st st'.
Proof.
  intros Hmode n. induction n as [|n IH]; intros last st; simpl.
  { exists st. by unfold ret, no_runtime_activity. }
  destruct (load_config_value W st) as (st0 & Hload & _).
  destruct (worker_iteration_idle W last st _ st0 Hload (Hmode _)) as [Hit Hq].
  unfold bind. rewrite Hit.
  destruct (IH last (after st0 (EvSleep 10))) as (st' & Hloop & Hq').
  exists st'. split; [done|].
  unfold no_runtime_activity in *.
  destruct Hq as (? & ? & ? & ? & ?), Hq' as (? & ? & ? & ? & ?).
  repeat split; congruence.
Qed.

Lemma check_cycle_list_fails W config st e :
  client_connected W = true ->
  containers_list W (trace st) = Raise e ->
  check_cycle W config st = (Raise e, after st EvContainersList).
Proof.
  intros Hconn Hlist. unfold check_cycle, after. unfold_M.
  by rewrite Hconn, Hlist.
Qed.

(** One pass of the worker loop.  It enumerates the containers exactly
    when the loaded [check_mode] is ['background'] and the clock minus
    [last_check_time] is at least [check_interval] minutes in seconds.
    The new [last_check_time] is read from the clock once, after the
    loop over all enumerated containers has finished; in every other
    case, also when the enumeration raised, it keeps its value. *)
Lemma cycle_gated_by_interval W last_check_time st config st0 :
  client_connected W = true ->
  load_config W st = (Ok config, st0) ->
  let now := time_time W (trace st0) in
  let interval := py_int int_of_str (check_interval_of config) in
  let due := cycle_due (check_mode_of config) interval now last_check_time in
  let started :=
    after st0 (EvLog Info "Background schedule: Starting check cycle...") in
  (due = true <->
   check_mode_of config = JStr "background" /\
   exists minutes,
     interval = Ok minutes /\
     (inject_Z (minutes * 60) <= now - last_check_time)%Q) /\
  exists last_check_time' st',
    worker_iteration int_of_str W last_check_time st = (Ok last_check_time', st') /\
    enumerations (trace st') =
      enumerations (trace st) + (if due then 1 else 0) /\
    match due, containers_list W (trace started) with
    | true, Ok cs =>
        exists t_end,
          trace st' =
            (t_end ++ [EvLog Info "Background cycle finished."]) ++ [EvSleep 10] /\
          last_check_time' = time_time W t_end /\
          checked_ids t_end =
            checked_ids (trace st) ++
            (c_id <$> filter (eligible (gethostname W
                                          (trace started ++ [EvContainersList]))) cs)
    | _, _ => last_check_time' = last_check_time
    end.
Proof.
  intros Hconn Hload now interval due started. split.
  - unfold due, cycle_due. rewrite andb_true_iff, py_eq_str_true.
    split.
    + intros [Hmode Hint]. split; [done|].
      destruct interval as [minutes|e]; [|done].
      exists minutes. split; [done|]. by apply interval_elapsed_spec.
    + intros [Hmode (minutes & -> & Hle)]. split; [done|].
      by apply interval_elapsed_spec.
  - rewrite (worker_iteration_cases _ _ _ _ _ Hload).
    apply load_config_quiet in Hload as [_ (_ & Henum & Hids & _)].
    subst due interval now. unfold cycle_due. fold started.
    destruct (py_eq_str (check_mode_of config) "background"); cbn [andb].
    2:{ eexists _, _. split; [done|]. split; [|done].
        simpl. trace_norm. by rewrite Henum. }
    destruct (py_int int_of_str (check_interval_of config)) as [minutes|e];
      cbn beta iota.
    2:{ eexists _, _. split; [done|]. split; [|done].
        simpl. trace_norm. by rewrite Henum. }
    destruct (interval_elapsed _ last_check_time (minutes * 60)).
    2:{ eexists _, _. split; [done|]. split; [|done].
        simpl. trace_norm. by rewrite Henum. }
    destruct (containers_list W (trace started)) as [cs|e] eqn:Hlist.
    + destruct (check_cycle_completes W config started cs Hconn Hlist)
        as (t_end & -> & Hids' & Henum').
      eexists _, _. split; [done|]. simpl. split.
      * revert Henum'. subst started. simpl. trace_norm.
        intros ->. rewrite Henum. simpl. trace_norm. lia.
      * exists t_end. split; [done|]. split; [done|].
        rewrite Hids'. subst started. simpl. trace_norm. by rewrite Hids.
    + rewrite (check_cycle_list_fails W config started e Hconn Hlist).
      eexists _, _. split; [done|]. split; [|done].
      subst started. simpl. trace_norm. rewrite Henum. lia.
Qed.

(** C6, amended.  Two consecutive passes of the worker loop.  Each
    pass enumerates the containers exactly when the loaded [check_mode]
    is ['background'] and the clock minus [last_check_time] is at least
    [check_interval] minutes in seconds.  A pass whose cycle ran to its
    end leaves as [last_check_time] the clock read once after the loop
    over all enumerated containers; the next pass, in background mode,
    does not enumerate when it comes less than the interval after that
    time and enumerates when it comes at least the interval after it.
    A pass that was not due, or whose enumeration raised, leaves
    [last_check_time] as it was; after an enumeration that raised, the
    next pass with the same mode and interval enumerates again,
    however soon it comes. *)
Theorem cycle_gated_by_recorded_completion
    W last_check_time st config st0 last_check_time1 st1 config1 st10 :
  client_connected W = true ->
  load_config W st = (Ok config, st0) ->
  worker_iteration int_of_str W last_check_time st = (Ok last_check_time1, st1) ->
  load_config W st1 = (Ok config1, st10) ->
  let now := time_time W (trace st0) in
  let interval := py_int int_of_str (check_interval_of config) in
  let due := cycle_due (check_mode_of config) interval now last_check_time in
  let started :=
    after st0 (EvLog Info "Background schedule: Starting check cycle...") in
  let now1 := time_time W (trace st10) in
  let interval1 := py_int int_of_str (check_interval_of config1) in
  let due1 := cycle_due (check_mode_of config1) interval1 now1 last_check_time1 in
  (due = true <->
   check_mode_of config = JStr "background" /\
   exists minutes,
     interval = Ok minutes /\
     (inject_Z (minutes * 60) <= now - last_check_time)%Q) /\
  enumerations (trace st1) = enumerations (trace st) + (if due then 1 else 0) /\
  match due, containers_list W (trace started) with
  | true, Ok cs =>
      exists t_end,
        trace st1 =
          (t_end ++ [EvLog Info "Background cycle finished."]) ++ [EvSleep 10] /\
        last_check_time1 = time_time W t_end /\
        checked_ids t_end =
          checked_ids (trace st) ++
          (c_id <$> filter (eligible (gethostname W
                                        (trace started ++ [EvContainersList]))) cs)
  | _, _ => last_check_time1 = last_check_time
  end /\
  exists last_check_time2 st2,
    worker_iteration int_of_str W last_check_time1 st1 = (Ok last_check_time2, st2) /\
    enumerations (trace st2) =
      enumerations (trace st1) + (if due1 then 1 else 0) /\
    (forall minutes,
       check_mode_of config1 = JStr "background" ->
       interval1 = Ok minutes ->
       ((now1 - last_check_time1 < inject_Z (minutes * 60))%Q ->
        enumerations (trace st2) = enumerations (trace st1)) /\
       ((inject_Z (minutes * 60) <= now1 - last_check_time1)%Q ->
        enumerations (trace st2) = S (enumerations (trace st1)))) /\
    (due = true ->
     (exists e, containers_list W (trace started) = Raise e) ->
     check_mode_of config1 = check_mode_of config ->
     interval1 = interval ->
     (now <= now1)%Q ->
     last_check_time1 = last_check_time /\
     enumerations (trace st2) = S (enumerations (trace st1))).
Proof.
  intros Hconn Hload Hpass Hload1 now interval due started now1 interval1 due1.
  pose proof (cycle_gated_by_interval W last_check_time st config st0
                Hconn Hload) as H.
  cbv zeta in H. fold now interval due started in H.
  destruct H as (Hiff & l' & s' & Hpass' & Henum & Hrec).
  rewrite Hpass in Hpass'. injection Hpass' as <- <-.
  pose proof (cycle_gated_by_interval W last_check_time1 st1 config1
                st10 Hconn Hload1) as H.
  cbv zeta in H. fold now1 interval1 due1 in H.
  destruct H as (Hiff1 & last2 & st2 & Hpass2 & Henum2 & _).
  split; [exact Hiff|]. split; [exact Henum|]. split; [exact Hrec|].
  exists last2, st2. split; [exact Hpass2|]. split; [exact Henum2|]. split.
  - intros minutes Hmode Hint. split.
    + intros Hlt. destruct due1; [|rewrite Henum2; lia].
      destruct (proj1 Hiff1 eq_refl) as (_ & m & Hm & Hle).
      rewrite Hint in Hm. injection Hm as <-. lra.
    + intros Hle. assert (Hd : due1 = true).
      { apply Hiff1. split; [done|]. by exists minutes. }
      rewrite Henum2, Hd. lia.
  - intros Hd (e & Hlist) Hmode Hint Hclock.
    rewrite Hd, Hlist in Hrec. split; [exact Hrec|].
    destruct (proj1 Hiff Hd) as (Hbg & m & Hm & Hle).
    assert (Hd1 : due1 = true).
    { apply Hiff1. split; [by rewrite Hmode|].
      exists m. split; [by rewrite Hint|]. rewrite Hrec. lra. }
    rewrite Henum2, Hd1. lia.
Qed.

(** C10.  A pass that finds [check_mode] ['startup'] or ['manual'] loads
    the configuration, sleeps ten seconds and does nothing else: no
    enumeration, no check, no pull, no run, and the cache and
    [last_check_time] keep their values; the two modes give the same
    pass.  With such a configuration the worker started with the
    process stays idle for any number of passes. *)
Theorem startup_and_manual_are_idle W last_check_time st config st0 :
  load_config W st = (Ok config, st0) ->
  check_mode_of config = JStr "startup" \/ check_mode_of config = JStr "manual" ->
  (worker_iteration int_of_str W last_check_time st =
     (Ok last_check_time, after st0 (EvSleep 10)) /\
   no_runtime_activity st (after st0 (EvSleep 10))) /\
  ((forall t, check_mode_of (stored_config (config_file W t)) = JStr "startup" \/
              check_mode_of (stored_config (config_file W t)) = JStr "manual") ->
   forall n s,
     exists last_check_time' s',
       background_worker int_of_str W n s = (Ok last_check_time', s') /\
       no_runtime_activity s s').
Proof.
  intros Hload Hmode. split.
  - apply (worker_iteration_idle _ _ _ _ _ Hload).
    destruct Hmode as [-> | ->]; discriminate.
  - intros Hall n s. unfold background_worker, bind, log, emit.
    destruct (worker_loop_idle W) with (n := n) (last_check_time := 0%Q)
      (st := after s (EvLog Info "Background worker started."))
      as (s' & Hloop & Hq).
    { intros t. destruct (Hall t) as [-> | ->]; discriminate. }
    unfold after in Hloop. rewrite Hloop.
    eexists _, s'. split; [done|].
    unfold no_runtime_activity in *. revert Hq. simpl. trace_norm. done.
Qed.

End SchedulerProperties.

Lemma cycle_gated_by_recorded_completion_witness :
  let W := ticking_world "background" 1 in
  let st1 := snd (worker_iteration no_int_of_str W 0%Q empty_state) in
  let st5 := snd (worker_loop no_int_of_str W 5 0%Q empty_state) in
  let st6 := snd (worker_iteration no_int_of_str W (inject_Z 1000) st5) in
  (* the pass at 1000 completes a cycle; the pass at 1010 runs none *)
  (enumerations (trace st1) = 1 /\
   enumerations (trace (snd (worker_iteration no_int_of_str W (inject_Z 1000) st1))) = 1) /\
  (* the pass at 1050 runs none; the pass at 1060 runs the next cycle *)
  (enumerations (trace st6) = 1 /\
   enumerations (trace (snd (worker_iteration no_int_of_str W (inject_Z 1000) st6))) = 2).
Proof.
  intros W st1 st5 st6. split.
  - pose proof (cycle_gated_by_recorded_completion no_int_of_str W
                  0%Q empty_state
                  (stored_config (background_file "background" 1)) empty_state
                  (inject_Z 1000) st1
                  (stored_config (background_file "background" 1)) st1
                  eq_refl eq_refl eq_refl eq_refl) as H.
    cbv zeta in H.
    destruct H as (_ & Henum & _ & last2 & st2 & Hpass2 & _ & Hgate & _).
    split; [exact Henum|].
    rewrite Hpass2. simpl.
    rewrite (proj1 (Hgate 1%Z eq_refl eq_refl)); [exact Henum|].
    vm_compute. reflexivity.
  - pose proof (cycle_gated_by_recorded_completion no_int_of_str W
                  (inject_Z 1000) st5
                  (stored_config (background_file "background" 1)) st5
                  (inject_Z 1000) st6
                  (stored_config (background_file "background" 1)) st6
                  eq_refl eq_refl eq_refl eq_refl) as H.
    cbv zeta in H.
    destruct H as (_ & Henum & _ & last2 & st2 & Hpass2 & _ & Hgate & _).
    split; [exact Henum|].
    rewrite Hpass2. simpl.
    rewrite (proj2 (Hgate 1%Z eq_refl eq_refl)); [by rewrite Henum|].
    vm_compute. discriminate.
Defined.

(** C6 (what the code does when the enumeration raises).  Two passes
    ten seconds apart with an interval of one minute: the enumeration
    of the first raises, no completion is recorded, and the second
    enumerates as well. *)
Lemma two_passes_within_interval_both_enumerate :
  let W := scheduled_world (background_with (JInt 1))
             (Raise (Exn APIError "daemon not ready")) in
  let first := worker_iteration no_int_of_str W 0%Q empty_state in
  let second := worker_iteration no_int_of_str W 0%Q (snd first) in
  fst first = Ok 0%Q /\
  enumerations (trace (snd first)) = 1 /\
  enumerations (trace (snd second)) = 2 /\
  (time_time W (trace (snd first)) - time_time W (trace empty_state) <
   inject_Z (1 * 60))%Q.
Proof. repeat split; vm_compute; reflexivity. Qed.

(** The first pass of a worker in background mode runs a cycle. *)
Example first_pass_runs_a_cycle :
  exists last_check_time' st',
    worker_iteration no_int_of_str (ticking_world "background" 1) 0%Q empty_state =
      (Ok last_check_time', st') /\
    enumerations (trace st') = 1 /\
    checked_ids (trace st') = [c_id web].
Proof.
  destruct (cycle_gated_by_interval no_int_of_str (ticking_world "background" 1)
              0%Q empty_state
              (stored_config (background_file "background" 1)) empty_state
              eq_refl eq_refl)
    as (_ & last' & st' & Hit & Henum & t_end & Htrace & _ & Hids).
  exists last', st'. split; [exact Hit|]. split; [exact Henum|].
  rewrite Htrace. unfold checked_ids in *. rewrite !omap_app, Hids. reflexivity.
Qed.

(** With [check_interval = 1] and a pass every ten seconds, the pass at
    1000 runs a cycle, the passes at 1010, ..., 1050 run none, and the
    pass at 1060 runs the next one. *)
Example one_minute_interval :
  let W := ticking_world "background" 1 in
  enumerations (trace (snd (worker_loop no_int_of_str W 1 0%Q empty_state))) = 1 /\
  enumerations (trace (snd (worker_loop no_int_of_str W 6 0%Q empty_state))) = 1 /\
  enumerations (trace (snd (worker_loop no_int_of_str W 7 0%Q empty_state))) = 2 /\
  fst (worker_loop no_int_of_str W 6 0%Q empty_state) = Ok (inject_Z 1000) /\
  fst (worker_loop no_int_of_str W 7 0%Q empty_state) = Ok (inject_Z 1060).
Proof. repeat split; vm_compute; reflexivity. Qed.

(** When the enumeration itself raises, no completion is recorded and
    the next pass tries again. *)
Example failed_enumeration_is_retried :
  let W := {| client_connected := true;
              containers_list := fun _ => Raise (Exn APIError "daemon not ready");
              containers_get := fun _ _ => Ok web;
              images_pull := fun _ _ => Ok web_image;
              containers_run := fun _ _ => Ok tt;
              gethostname := fun _ => "host";
              time_time := fun t => inject_Z (1000 + slept t);
              datetime_now := fun _ => "2024-03-03T03:03:03";
              config_file := fun _ => background_file "background" 1 |} in
  enumerations (trace (snd (worker_loop no_int_of_str W 2 0%Q empty_state))) = 2 /\
  fst (worker_loop no_int_of_str W 2 0%Q empty_state) = Ok 0%Q.
Proof. repeat split; vm_compute; reflexivity. Qed.

Lemma startup_and_manual_are_idle_witness :
  worker_iteration no_int_of_str (ticking_world "startup" 1) 0%Q empty_state =
    (Ok 0%Q, after empty_state (EvSleep 10)) /\
  worker_iteration no_int_of_str (ticking_world "manual" 1) 0%Q empty_state =
    (Ok 0%Q, after empty_state (EvSleep 10)) /\
  exists last_check_time' s',
    background_worker no_int_of_str (ticking_world "startup" 1) 5 empty_state =
      (Ok last_check_time', s') /\
    no_runtime_activity empty_state s'.
Proof.
  destruct (startup_and_manual_are_idle no_int_of_str (ticking_world "startup" 1)
              0%Q empty_state
              (stored_config (background_file "startup" 1)) empty_state
              eq_refl (or_introl eq_refl))
    as [[Hstartup _] Hworker].
  destruct (startup_and_manual_are_idle no_int_of_str (ticking_world "manual" 1)
              0%Q empty_state
              (stored_config (background_file "manual" 1)) empty_state
              eq_refl (or_intror eq_refl))
    as [[Hmanual _] _].
  split; [exact Hstartup|]. split; [exact Hmanual|].
  apply Hworker. intros t. left. reflexivity.
Defined.

(** ** The examples of the specification *)

Example short_of_digest :
  short_of "sha256:0123456789abcdef0123" = "0123456789ab" /\
  short_of "0123" = "0123" /\
  str_in "watchtower" "containrrr/watchtower:latest" = true /\
  str_in "0123456789ab" "host" = false.
Proof. repeat split. Qed.

Example policy_selected_web :
  let fresh := stale_outcome in
  let local :=
    {| update_available := false; is_local := true;
       current_id_short := "111111111111"; new_id_short := "n/a";
       current_created := "Unknown"; new_created := "n/a";
       checked_at := "2024-03-03T03:03:03" |} in
  dispatch_decision (JStr "selected") (JList [JStr "web"]) "web" fresh = Ok true /\
  dispatch_decision (JStr "selected") (JList [JStr "web"]) "api" fresh = Ok false /\
  dispatch_decision (JStr "all") (JList []) "web" local = Ok false /\
  dispatch_decision (JStr "all") (JList [JStr "web"]) "web" local = Ok false /\
  dispatch_decision (JStr "off") (JList [JStr "web"]) "web" fresh = Ok false.
Proof. repeat split. Qed.

(** A pulled image with the identity of the running one: no update, not
    local; a different identity: an update. *)
Example check_same_and_newer_image :
  let same := simple_world [web] (Ok web_image) (Ok tt) "host" FileMissing 0 in
  let newer := simple_world [web] (Ok web_image_new) (Ok tt) "host" FileMissing 0 in
  (exists r st', perform_single_check same (c_id web) empty_state = (Ok r, st') /\
                 update_available r = false /\ is_local r = false) /\
  (exists r st', perform_single_check newer (c_id web) empty_state = (Ok r, st') /\
                 update_available r = true /\ is_local r = false /\
                 new_id_short r = "222222222222").
Proof.
  split; eexists _, _; (split; [vm_compute; reflexivity|]); repeat split.
Qed.

(** The background path of the eviction: the policy sends [web] to the
    updater, the run succeeds and the entry is gone; the run fails and
    the entry written by the check stays. *)
Example background_eviction :
  let ok := simple_world [web] (Ok web_image_new) (Ok tt) "host" FileMissing 0 in
  let failing := simple_world [web] (Ok web_image_new)
                   (Raise (Exn APIError "cannot start container")) "host"
                   FileMissing 0 in
  SERVER_CACHE (snd (process_container ok (JStr "all") (JList []) web checked_state))
    !! c_id web = None /\
  update_available <$>
    SERVER_CACHE (snd (process_container failing (JStr "all") (JList []) web
                         checked_state)) !! c_id web = Some true.
Proof. split; vm_compute; reflexivity. Qed.

(* ===================================================================== *)
(** * Further properties of the code                                       *)
(* ===================================================================== *)

(** ** The update checker *)

(** A pull that succeeds: the outcome is not local, and an update is
    reported exactly when the identity of the pulled image differs from
    the identity of the image the container runs. *)
Theorem perform_single_check_compares_identities
    W container_id st container img new_img :
  client_connected W = true ->
  containers_get W (trace st) container_id = Ok container ->
  c_image container 0 = Ok img ->
  truthy (get_image_name 1 container) = true ->
  get_image_name 1 container <> "unknown-image" ->
  images_pull W (trace st ++ [EvContainersGet container_id])
    (get_image_name 1 container) = Ok new_img ->
  exists r st',
    perform_single_check W container_id st = (Ok r, st') /\
    is_local r = false /\
    (update_available r = true <-> img_id new_img <> img_id img) /\
    current_id_short r = short_of (img_id img) /\
    new_id_short r = or_na short_of (Some (img_id new_img)) /\
    current_created r = created_of img /\
    new_created r = or_na (fun s => s) (Some (created_of new_img)).
Proof.
  intros Hconn Hget Himg Htruthy Hname Hpull.
  apply String.eqb_neq in Hname.
  unfold perform_single_check, try_pull. unfold_M.
  rewrite Hconn. simpl. rewrite Hget, Himg, Htruthy, Hname. simpl.
  rewrite Hpull. simpl.
  eexists _, _. split; [reflexivity|]. simpl.
  repeat split; try reflexivity.
  - intros H Heq. rewrite Heq, String.eqb_refl in H. discriminate.
  - intros H. apply negb_true_iff, String.eqb_neq. exact H.
Qed.

Lemma perform_single_check_compares_identities_witness :
  (exists r st',
     perform_single_check
       (simple_world [web] (Ok web_image) (Ok tt) "host" FileMissing 0)
       (c_id web) empty_state = (Ok r, st') /\
     is_local r = false /\ update_available r = false) /\
  (exists r st',
     perform_single_check
       (simple_world [web] (Ok web_image_new) (Ok tt) "host" FileMissing 0)
       (c_id web) empty_state = (Ok r, st') /\
     is_local r = false /\ update_available r = true).
Proof.
  split.
  - destruct (perform_single_check_compares_identities
                (simple_world [web] (Ok web_image) (Ok tt) "host" FileMissing 0)
                (c_id web) empty_state web web_image web_image
                eq_refl eq_refl eq_refl eq_refl)
      as (r & st' & Hrun & Hlocal & Hupd & _); [discriminate | reflexivity |].
    exists r, st'. split; [exact Hrun|]. split; [exact Hlocal|].
    destruct (update_available r); [|reflexivity].
    exfalso. by apply (proj1 Hupd).
  - destruct (perform_single_check_compares_identities
                (simple_world [web] (Ok web_image_new) (Ok tt) "host" FileMissing 0)
                (c_id web) empty_state web web_image web_image_new
                eq_refl eq_refl eq_refl eq_refl)
      as (r & st' & Hrun & Hlocal & Hupd & _); [discriminate | reflexivity |].
    exists r, st'. split; [exact Hrun|]. split; [exact Hlocal|].
    apply Hupd. discriminate.
Defined.

(** The only thing a check does to the cache: when it returns an
    outcome, the entry of the checked id is overwritten with it and
    every other entry stays; when it raises, the cache is as before. *)
Theorem perform_single_check_cache_effect W container_id st :
  SERVER_CACHE (snd (perform_single_check W container_id st)) =
  match fst (perform_single_check W container_id st) with
  | Ok r => <[container_id := r]> (SERVER_CACHE st)
  | Raise _ => SERVER_CACHE st
  end.
Proof.
  unfold perform_single_check, try_pull. unfold_M.
  split_cases; done.
Qed.

(** What a check asks the daemon: it never runs a container and never
    enumerates; it pulls at most one image, namely the resolved
    reference of the container it looked up, and never an empty
    reference or the marker ["unknown-image"]. *)
Theorem perform_single_check_requests W container_id st :
  let st' := snd (perform_single_check W container_id st) in
  run_requests (trace st') = run_requests (trace st) /\
  enumerations (trace st') = enumerations (trace st) /\
  (pulled_names (trace st') = pulled_names (trace st) \/
   exists container,
     containers_get W (trace st) container_id = Ok container /\
     pulled_names (trace st') =
       pulled_names (trace st) ++ [get_image_name 1 container] /\
     get_image_name 1 container <> EmptyString /\
     get_image_name 1 container <> "unknown-image").
Proof.
  pose proof (perform_single_check_trace W container_id st) as (_ & Hr & He).
  split; [exact Hr|]. split; [exact He|]. clear Hr He.
  unfold perform_single_check, try_pull. unfold_M.
  destruct (client_connected W); [|by left]. simpl.
  destruct (containers_get W (trace st) container_id) as [container|e];
    [|left; simpl; by trace_norm].
  destruct (c_image container 0) as [img|e]; [|left; simpl; by trace_norm].
  simpl.
  destruct (truthy (get_image_name 1 container)) eqn:Htruthy; simpl;
    [|left; simpl; by trace_norm].
  destruct (String.eqb_spec (get_image_name 1 container) "unknown-image")
    as [Heq|Hne]; simpl; [left; simpl; by trace_norm|].
  right. exists container. split; [done|]. split.
  - split_cases; trace_norm; done.
  - split; [|done]. intros Heq. rewrite Heq in Htruthy. discriminate.
Qed.

(** ** Display fields of an outcome *)

Lemma substring_from_start_length n s :
  String.length (String.substring 0 n s) <= n.
Proof.
  revert s. induction n as [|n IH]; intros [|c s]; simpl; try lia.
  specialize (IH s). lia.
Qed.

Lemma str_in_colon_cons c s :
  str_in ":" (String c s) = Ascii.eqb c ":" || str_in ":" s.
Proof.
  cbn [str_in String.prefix].
  destruct (ascii_dec ":" c) as [<-|Hne].
  - by destruct s.
  - destruct (Ascii.eqb_spec c ":") as [->|_]; [done|]. reflexivity.
Qed.

Lemma last_component_no_colon s : str_in ":" (last_component s) = false.
Proof.
  induction s as [|c s IH]; [reflexivity|].
  cbn [last_component].
  destruct (str_in ":" s) eqn:Hs; [exact IH|].
  destruct (Ascii.eqb c ":") eqn:Hc; [exact Hs|].
  by rewrite str_in_colon_cons, Hc, Hs.
Qed.

Lemma substring_from_start_no_colon n s :
  str_in ":" s = false -> str_in ":" (String.substring 0 n s) = false.
Proof.
  revert s. induction n as [|n IH]; intros [|c s];
    cbn [String.substring]; try done.
  rewrite !str_in_colon_cons. intros [Hc Hs]%orb_false_iff.
  rewrite Hc. simpl. by apply IH.
Qed.

Lemma short_of_length x : String.length (short_of x) <= 12.
Proof. apply substring_from_start_length. Qed.

Lemma short_of_no_colon x : str_in ":" (short_of x) = false.
Proof. apply substring_from_start_no_colon, last_component_no_colon. Qed.

(** [x.split(':')[-1][:12]] has at most twelve characters and no colon,
    and is the beginning of [x] itself when [x] has no colon. *)
Theorem short_of_bounds x :
  String.length (short_of x) <= 12 /\
  str_in ":" (short_of x) = false /\
  (str_in ":" x = false -> short_of x = String.substring 0 12 x).
Proof.
  split; [apply short_of_length|]. split; [apply short_of_no_colon|].
  unfold short_of.
  - intros Hx. f_equal. destruct x as [|c s]; [reflexivity|].
    rewrite str_in_colon_cons in Hx. apply orb_false_iff in Hx as [Hc Hs].
    cbn [last_component]. by rewrite Hs, Hc.
Qed.

(** Every outcome a check returns shows short identities of at most
    twelve characters without a colon, and when the image was
    classified as local the fields of the pulled image hold the marker
    ["n/a"]. *)
Theorem perform_single_check_display_fields W container_id st r st' :
  perform_single_check W container_id st = (Ok r, st') ->
  String.length (current_id_short r) <= 12 /\
  String.length (new_id_short r) <= 12 /\
  str_in ":" (current_id_short r) = false /\
  str_in ":" (new_id_short r) = false /\
  (is_local r = true -> new_id_short r = "n/a" /\ new_created r = "n/a").
Proof.
  assert (Hna : forall x,
            String.length (or_na short_of x) <= 12 /\
            str_in ":" (or_na short_of x) = false).
  { intros [s|]; simpl; [|split; [lia|done]].
    destruct (truthy s); simpl; [|split; [lia|done]].
    split; [apply short_of_length | apply short_of_no_colon]. }
  unfold perform_single_check, try_pull. unfold_M. intros H.
  destruct (client_connected W); [|done]. simpl in H.
  destruct (containers_get W (trace st) container_id) as [container|e]; [|done].
  destruct (c_image container 0) as [img|e]; [|done]. simpl in H.
  destruct (negb (truthy (get_image_name 1 container)) ||
            (get_image_name 1 container =? "unknown-image")); [done|].
  simpl in H.
  destruct (images_pull W _ _) as [new_img|e]; simpl in H.
  - injection H as <- <-. simpl.
    destruct (Hna (Some (img_id new_img))) as [Hlen Hcolon].
    repeat split; try apply short_of_length; try apply short_of_no_colon; done.
  - destruct (is_registry_error e); simpl in H; [|done].
    injection H as <- <-. simpl.
    repeat split; try apply short_of_length; try apply short_of_no_colon;
      try done. simpl. lia.
Qed.

Lemma perform_single_check_display_fields_witness :
  let p := perform_single_check
             (simple_world [web] (Raise (Exn NotFound "pull access denied")) (Ok tt)
                "host" FileMissing 0)
             (c_id web) empty_state in
  exists r, fst p = Ok r /\
            current_id_short r = "111111111111" /\
            new_id_short r = "n/a" /\ new_created r = "n/a".
Proof.
  intros p.
  destruct (perform_single_check_display_fields
              (simple_world [web] (Raise (Exn NotFound "pull access denied")) (Ok tt)
                 "host" FileMissing 0)
              (c_id web) empty_state
              match fst p with Ok r => r | Raise _ => stale_outcome end (snd p) eq_refl)
    as (_ & _ & _ & _ & Hlocal).
  eexists. split; [reflexivity|]. split; [reflexivity|].
  exact (Hlocal eq_refl).
Defined.

(** A check whose container cannot be looked up, or whose image cannot
    be inspected, raises the error of the daemon as it is, pulls
    nothing and leaves the cache alone. *)
Theorem perform_single_check_lookup_failure W container_id st e :
  client_connected W = true ->
  containers_get W (trace st) container_id = Raise e \/
  (exists container,
     containers_get W (trace st) container_id = Ok container /\
     c_image container 0 = Raise e) ->
  exists st',
    perform_single_check W container_id st = (Raise e, st') /\
    SERVER_CACHE st' = SERVER_CACHE st /\
    pulled_names (trace st') = pulled_names (trace st).
Proof.
  intros Hconn Hfail.
  unfold perform_single_check. unfold_M. rewrite Hconn. simpl.
  destruct Hfail as [-> | (container & -> & ->)]; simpl;
    eexists; (split; [reflexivity|]); simpl; trace_norm; done.
Qed.

Lemma perform_single_check_lookup_failure_witness :
  (exists st',
     perform_single_check
       (simple_world [web] (Ok web_image) (Ok tt) "host" FileMissing 0)
       "no-such-id" empty_state =
       (Raise (Exn NotFound "No such container"), st') /\
     SERVER_CACHE st' = ∅) /\
  (exists st',
     perform_single_check
       (simple_world [broken] (Ok web_image) (Ok tt) "host" FileMissing 0)
       (c_id broken) empty_state =
       (Raise (Exn ImageNotFound "No such image"), st') /\
     pulled_names (trace st') = []).
Proof.
  split.
  - destruct (perform_single_check_lookup_failure
                (simple_world [web] (Ok web_image) (Ok tt) "host" FileMissing 0)
                "no-such-id" empty_state (Exn NotFound "No such container")
                eq_refl (or_introl eq_refl))
      as (st' & Hrun & Hcache & _).
    exists st'. split; [exact Hrun | exact Hcache].
  - destruct (perform_single_check_lookup_failure
                (simple_world [broken] (Ok web_image) (Ok tt) "host" FileMissing 0)
                (c_id broken) empty_state (Exn ImageNotFound "No such image")
                eq_refl
                (or_intror (ex_intro _ broken (conj eq_refl eq_refl))))
      as (st' & Hrun & _ & Hpulled).
    exists st'. split; [exact Hrun | exact Hpulled].
Defined.

(** ** The image identity resolver *)

(** Where the name returned by [get_image_name] comes from: it is the
    first tag of the image, or the non-empty reference recorded in the
    configuration of the container, or one of the two markers. *)
Theorem get_image_name_sources k container :
  (exists img t rest,
     c_image container (S k) = Ok img /\ img_tags img = t :: rest /\
     get_image_name k container = t) \/
  (c_config container = ConfigDict (Some (get_image_name k container)) /\
   get_image_name k container <> EmptyString) \/
  get_image_name k container = "unknown-image" \/
  get_image_name k container = "unknown".
Proof.
  unfold get_image_name, get_image_name_body, and_then.
  destruct (c_image container k) as [img|e]; [|by right; right; right].
  case_bool_decide as Htags; simpl.
  - destruct (c_config container) as [| |[s|]]; simpl;
      try (by right; right; left); try (by right; right; right).
    destruct (truthy s) eqn:Hs; [|by right; right; left].
    right; left. split; [done|]. intros ->. discriminate.
  - destruct (c_image container (S k)) as [img'|e]; [|by right; right; right].
    destruct (img_tags img') as [|t rest] eqn:Htags';
      [by right; right; right|].
    left. by exists img', t, rest.
Qed.

(** The resolver keeps its contract of a non-empty name as long as the
    daemon reports no empty tag. *)
Theorem get_image_name_nonempty k container :
  (forall j img, c_image container j = Ok img -> EmptyString ∉ img_tags img) ->
  get_image_name k container <> EmptyString.
Proof.
  intros Htags.
  unfold get_image_name, get_image_name_body, and_then.
  destruct (c_image container k) as [img|e]; [|done].
  case_bool_decide; simpl.
  - destruct (c_config container) as [| |[s|]]; simpl; try done.
    destruct (truthy s) eqn:Hs; [|done]. intros ->. discriminate.
  - destruct (c_image container (S k)) as [img'|e] eqn:Himg'; [|done].
    destruct (img_tags img') as [|t rest] eqn:Hl; [done|].
    intros ->. apply (Htags _ _ Himg'). rewrite Hl. left.
Qed.

Lemma get_image_name_nonempty_witness :
  get_image_name 0 web <> EmptyString /\ get_image_name 0 untagged <> EmptyString.
Proof.
  split.
  - apply get_image_name_nonempty. intros j img [= <-]. simpl.
    intros H%list_elem_of_In. simpl in H. intuition discriminate.
  - apply get_image_name_nonempty. intros j img [= <-]. simpl.
    apply not_elem_of_nil.
Defined.

(** ** The updater dispatcher *)

Lemma trigger_updater_engine_steps W name st :
  client_connected W = true ->
  exists t,
    trigger_updater_engine W name st =
      (containers_run W t (updater_request name),
       {| SERVER_CACHE := SERVER_CACHE st;
          trace := t ++ [EvContainersRun (updater_request name)] |}) /\
    pulled_names t = pulled_names (trace st) ++ [UPDATER_IMAGE] /\
    run_requests t = run_requests (trace st) /\
    checked_ids t = checked_ids (trace st) /\
    enumerations t = enumerations (trace st).
Proof.
  intros Hconn. unfold trigger_updater_engine. unfold_M. rewrite Hconn. simpl.
  destruct (images_pull W _ UPDATER_IMAGE) as [img|e]; simpl;
    eexists; (split; [reflexivity|]); trace_norm; done.
Qed.

(** The dispatcher first pulls the updater image, then runs the updater
    once for the named container; what it returns or raises is the
    answer to that run alone, so a failed refresh of the updater image
    never fails the dispatch.  The cache is not touched. *)
Theorem trigger_updater_engine_outcome W name st :
  client_connected W = true ->
  exists t st',
    trigger_updater_engine W name st =
      (containers_run W t (updater_request name), st') /\
    trace st' = t ++ [EvContainersRun (updater_request name)] /\
    pulled_names t = pulled_names (trace st) ++ [UPDATER_IMAGE] /\
    run_requests t = run_requests (trace st) /\
    SERVER_CACHE st' = SERVER_CACHE st.
Proof.
  intros Hconn.
  destruct (trigger_updater_engine_steps W name st Hconn)
    as (t & Hrun & Hp & Hr & _).
  eexists t, _. split; [exact Hrun|]. done.
Qed.

Lemma trigger_updater_engine_outcome_witness :
  exists st',
    trigger_updater_engine
      (simple_world [web] (Raise (Exn APIError "registry unreachable")) (Ok tt)
         "host" FileMissing 0)
      "web" empty_state = (Ok tt, st') /\
    pulled_names (trace st') = [UPDATER_IMAGE] /\
    run_requests (trace st') = [updater_request "web"].
Proof.
  destruct (trigger_updater_engine_outcome
              (simple_world [web] (Raise (Exn APIError "registry unreachable")) (Ok tt)
                 "host" FileMissing 0)
              "web" empty_state eq_refl)
    as (t & st' & Hrun & Htrace & Hp & Hr & _).
  exists st'. split; [exact Hrun|]. rewrite Htrace.
  unfold pulled_names, run_requests in *. rewrite !omap_app, Hp, Hr.
  split; reflexivity.
Defined.

(** ** The routes *)

(** The update route answers with success exactly when the run of the
    updater returned, and with the message of the error and status 500
    when it raised; in both cases one run was requested, for the named
    container. *)
Theorem run_update_reports_the_run W name st :
  client_connected W = true ->
  exists t st',
    run_update W name st =
      (Ok match containers_run W t (updater_request name) with
          | Ok _ => Json ("Update triggered for " +:+ name)
          | Raise e => JsonError (exn_msg e) 500
          end, st') /\
    trace st' = t ++ [EvContainersRun (updater_request name)] /\
    run_requests t = run_requests (trace st).
Proof.
  intros Hconn.
  destruct (trigger_updater_engine_steps W name st Hconn)
    as (t & Hrun & _ & Hr & _).
  unfold run_update. rewrite Hconn. simpl. unfold try_except, bind.
  rewrite Hrun. exists t.
  destruct (containers_run W t (updater_request name)) as [[]|e];
    eexists; (split; [reflexivity|]); done.
Qed.

Lemma run_update_reports_the_run_witness :
  (exists st',
     run_update (simple_world [web] (Ok web_image) (Ok tt) "host" FileMissing 0)
       "web" empty_state = (Ok (Json "Update triggered for web"), st')) /\
  (exists st',
     run_update
       (simple_world [web] (Ok web_image)
          (Raise (Exn APIError "cannot start container")) "host" FileMissing 0)
       "web" empty_state = (Ok (JsonError "cannot start container" 500), st')).
Proof.
  split.
  - destruct (run_update_reports_the_run
                (simple_world [web] (Ok web_image) (Ok tt) "host" FileMissing 0)
                "web" empty_state eq_refl) as (t & st' & Hrun & _).
    exists st'. exact Hrun.
  - destruct (run_update_reports_the_run
                (simple_world [web] (Ok web_image)
                   (Raise (Exn APIError "cannot start container")) "host"
                   FileMissing 0)
                "web" empty_state eq_refl) as (t & st' & Hrun & _).
    exists st'. exact Hrun.
Defined.

Lemma list_containers_value W st :
  client_connected W = true ->
  list_containers W st =
  (Ok match containers_list W (trace st) with
      | Ok cs =>
          Json ((fun c => container_data (SERVER_CACHE st) c (get_image_name 0 c))
                <$> filter (eligible (gethostname W (trace st))) cs)
      | Raise e => JsonError (exn_msg e) 500
      end,
   after st EvContainersList).
Proof.
  intros Hconn. unfold list_containers, after. rewrite Hconn. simpl.
  unfold bind at 1, observe. unfold bind at 1, attempt, client_call, ask.
  rewrite Hconn.
  destruct (containers_list W (trace st)) as [cs|e]; [|done].
  unfold bind. by rewrite list_containers_loop_value.
Qed.

(** No route lets an exception of the daemon escape: [check_update],
    [run_update], [list_containers] and [get_settings] always return a
    response, and an error response of the first three has status
    500. *)
Theorem routes_never_raise W :
  (forall container_id st,
     exists resp st', check_update W container_id st = (Ok resp, st') /\
       forall msg status, resp = JsonError msg status -> status = 500%Z) /\
  (forall name st,
     exists resp st', run_update W name st = (Ok resp, st') /\
       forall msg status, resp = JsonError msg status -> status = 500%Z) /\
  (forall st,
     exists resp st', list_containers W st = (Ok resp, st') /\
       forall msg status, resp = JsonError msg status -> status = 500%Z) /\
  (forall st,
     exists config st', get_settings W st = (Ok (Json config), st')).
Proof.
  repeat split.
  - intros cid st. unfold check_update.
    destruct (client_connected W); simpl.
    + unfold try_except, bind.
      destruct (perform_single_check W cid st) as [[r|e] st1]; unfold_M;
        eexists _, _; (split; [reflexivity|]); congruence.
    + unfold ret. eexists _, _. split; [reflexivity|]. congruence.
  - intros name st. unfold run_update.
    destruct (client_connected W); simpl.
    + unfold try_except, bind.
      destruct (trigger_updater_engine W name st) as [[[]|e] st1]; unfold_M;
        eexists _, _; (split; [reflexivity|]); congruence.
    + unfold ret. eexists _, _. split; [reflexivity|]. congruence.
  - intros st. destruct (client_connected W) eqn:Hconn.
    + rewrite (list_containers_value W st Hconn).
      destruct (containers_list W (trace st)) as [cs|e];
        eexists _, _; (split; [reflexivity|]); congruence.
    + unfold list_containers. rewrite Hconn. unfold ret. simpl.
      eexists _, _. split; [reflexivity|]. congruence.
  - intros st. unfold get_settings, bind.
    destruct (load_config_value W st) as (st' & -> & _).
    unfold ret. by eexists _, _.
Qed.

(** Listing only reads: the cache is as before, no container is looked
    up, nothing is pulled or run, and the daemon is asked for the list
    at most once. *)
Theorem list_containers_only_reads W st :
  let st' := snd (list_containers W st) in
  SERVER_CACHE st' = SERVER_CACHE st /\
  checked_ids (trace st') = checked_ids (trace st) /\
  pulled_names (trace st') = pulled_names (trace st) /\
  run_requests (trace st') = run_requests (trace st) /\
  enumerations (trace st') <= S (enumerations (trace st)).
Proof.
  destruct (client_connected W) eqn:Hconn.
  - rewrite (list_containers_value W st Hconn). simpl. trace_norm.
    repeat split; first [done | lia].
  - unfold list_containers. rewrite Hconn. simpl.
    repeat split; first [done | lia].
Qed.

Lemma check_update_json W container_id st r st1 :
  check_update W container_id st = (Ok (Json r), st1) ->
  client_connected W = true /\
  perform_single_check W container_id st = (Ok r, st1).
Proof.
  unfold check_update. destruct (client_connected W); simpl; [|done].
  unfold try_except, bind.
  destruct (perform_single_check W container_id st) as [[r'|e] s]; unfold_M;
    intros H; by simplify_eq.
Qed.

(** A check made through the route is seen by the next listing: every
    listed entry with the checked id carries the outcome the check
    returned, and an enumerated container with that id that is not
    excluded is listed. *)
Theorem checked_outcome_is_listed W container_id st r st1 cs :
  check_update W container_id st = (Ok (Json r), st1) ->
  containers_list W (trace st1) = Ok cs ->
  exists listed st2,
    list_containers W st1 = (Ok (Json listed), st2) /\
    (forall d, d ∈ listed -> cd_id d = container_id ->
               cd_cached_result d = Some r) /\
    (forall c, c ∈ cs -> c_id c = container_id ->
               eligible (gethostname W (trace st1)) c ->
               exists d, d ∈ listed /\ cd_id d = container_id /\
                         cd_name d = c_name c /\ cd_cached_result d = Some r).
Proof.
  intros Hcheck Hlist.
  apply check_update_json in Hcheck as [Hconn Hcheck].
  assert (Hentry : SERVER_CACHE st1 !! container_id = Some r).
  { by apply (perform_single_check_cache W container_id st (Ok r) st1). }
  rewrite (list_containers_value W st1 Hconn), Hlist.
  eexists _, _. split; [reflexivity|]. split.
  - intros d Hd Hid. apply list_elem_of_fmap in Hd as (c & -> & Hc).
    simpl in *. by rewrite Hid.
  - intros c Hc Hid Hel.
    exists (container_data (SERVER_CACHE st1) c (get_image_name 0 c)).
    split.
    + apply list_elem_of_fmap. exists c. split; [done|].
      by apply list_elem_of_filter.
    + simpl. by rewrite Hid.
Qed.

Lemma checked_outcome_is_listed_witness :
  let W := simple_world [web] (Ok web_image_new) (Ok tt) "host" FileMissing 0 in
  exists r st1 listed st2,
    check_update W (c_id web) empty_state = (Ok (Json r), st1) /\
    list_containers W st1 = (Ok (Json listed), st2) /\
    cd_cached_result <$> listed = [Some r] /\
    update_available r = true.
Proof.
  intros W.
  destruct (checked_outcome_is_listed W (c_id web) empty_state
              match fst (perform_single_check W (c_id web) empty_state) with
              | Ok r => r
              | Raise _ => stale_outcome
              end
              (snd (perform_single_check W (c_id web) empty_state))
              [web] eq_refl eq_refl)
    as (listed & st2 & Hlist & _ & _).
  eexists _, _, listed, st2. split; [reflexivity|]. split; [exact Hlist|].
  rewrite (list_containers_value W _ eq_refl) in Hlist.
  injection Hlist as <- _. split; reflexivity.
Defined.

(** After the background cycle has updated a container, the listing no
    longer shows an outcome for it. *)
Theorem updated_container_is_listed_unchecked
    W auto_up_mode auto_up_list c st r st1 cs :
  perform_single_check W (c_id c) st = (Ok r, st1) ->
  dispatch_decision auto_up_mode auto_up_list (c_name c) r = Ok true ->
  fst (trigger_updater_engine W (c_name c)
         (after st1 (EvLog Info ("Auto-Update triggered for " +:+ c_name c)))) =
    Ok tt ->
  let st' := snd (process_container W auto_up_mode auto_up_list c st) in
  containers_list W (trace st') = Ok cs ->
  exists listed st2,
    list_containers W st' = (Ok (Json listed), st2) /\
    forall d, d ∈ listed -> cd_id d = c_id c -> cd_cached_result d = None.
Proof.
  intros Hcheck Hdec Hrun st' Hlist.
  pose proof (process_container_eviction W auto_up_mode auto_up_list c st r st1
                Hcheck Hdec) as Hev.
  simpl in Hev. unfold after in Hrun. rewrite Hrun in Hev. fold st' in Hev.
  apply perform_single_check_connected in Hcheck as Hconn.
  rewrite (list_containers_value W st' Hconn), Hlist.
  eexists _, _. split; [reflexivity|].
  intros d Hd Hid. apply list_elem_of_fmap in Hd as (c' & -> & Hc').
  simpl in *. by rewrite Hid.
Qed.

Lemma updated_container_is_listed_unchecked_witness :
  let W := simple_world [web] (Ok web_image_new) (Ok tt) "host" FileMissing 0 in
  exists listed st2,
    list_containers W
      (snd (process_container W (JStr "all") (JList []) web checked_state)) =
      (Ok (Json listed), st2) /\
    cd_name <$> listed = ["web"] /\
    forall d, d ∈ listed -> cd_id d = c_id web -> cd_cached_result d = None.
Proof.
  intros W.
  destruct (updated_container_is_listed_unchecked W (JStr "all") (JList []) web
              checked_state
              match fst (perform_single_check W (c_id web) checked_state) with
              | Ok r => r
              | Raise _ => stale_outcome
              end
              (snd (perform_single_check W (c_id web) checked_state))
              [web] eq_refl eq_refl eq_refl eq_refl)
    as (listed & st2 & Hlist & Hnone).
  exists listed, st2. split; [exact Hlist|]. split; [|exact Hnone].
  rewrite (list_containers_value W _ eq_refl) in Hlist.
  injection Hlist as <- _. reflexivity.
Defined.

(** ** Settings *)

Lemma load_config_with_file W file st :
  exists st0,
    load_config (with_file W file) st = (Ok (stored_config file), st0) /\
    no_runtime_activity st st0.
Proof.
  destruct (load_config_value (with_file W file) st) as (st0 & Hload & Hq).
  exists st0. split; [exact Hload|]. unfold no_runtime_activity. tauto.
Qed.

Lemma stored_config_has_defaults file k :
  is_Some (DEFAULT_CONFIG !! k) -> is_Some (stored_config file !! k).
Proof.
  intros Hk. unfold stored_config.
  destruct file as [|e|[]]; try done.
  destruct Hk as [v Hv]. destruct (m !! k) as [x|] eqn:Hm.
  - exists x. by apply lookup_union_Some_l.
  - exists v. rewrite lookup_union_r; done.
Qed.

Lemma union_absorbs (m d : gmap string json) :
  (forall k, is_Some (d !! k) -> is_Some (m !! k)) -> m ∪ d = m.
Proof.
  intros Hsub. apply map_eq. intros k. rewrite lookup_union.
  destruct (m !! k) as [x|] eqn:Hm; [by destruct (d !! k)|].
  destruct (d !! k) as [y|] eqn:Hd; [|done].
  destruct (Hsub k) as [x Hx]; [by rewrite Hd|]. congruence.
Qed.

Lemma apply_settings_object keys m current_config :
  exists config,
    apply_settings keys (JObj m) current_config = Ok config /\
    forall k,
      config !! k =
      if bool_decide (k ∈ keys /\ is_Some (m !! k)) then m !! k
      else current_config !! k.
Proof.
  revert current_config. induction keys as [|key rest IH]; intros cur.
  { exists cur. split; [done|]. intros k.
    rewrite bool_decide_eq_false_2; [done|]. intros [H _]. by apply not_elem_of_nil in H. }
  cbn [apply_settings py_in and_then].
  destruct (m !! key) as [x|] eqn:Hkey.
  - rewrite bool_decide_eq_true_2 by eauto.
    unfold py_getitem. rewrite Hkey. cbn [and_then].
    destruct (IH (<[key := x]> cur)) as (config & Happly & Hlook).
    exists config. split; [exact Happly|]. intros k. rewrite Hlook.
    destruct (decide (k = key)) as [->|Hne].
    + rewrite lookup_insert_eq.
      rewrite (bool_decide_eq_true_2 (key ∈ key :: rest /\ _))
        by (split; [left | by rewrite Hkey]).
      case_bool_decide; by rewrite ?Hkey.
    + rewrite lookup_insert_ne by done.
      apply (f_equal (fun b : bool => if b then m !! k else cur !! k)).
      apply bool_decide_ext. rewrite elem_of_cons. intuition congruence.
  - rewrite bool_decide_eq_false_2 by (by intros [? ?]).
    destruct (IH cur) as (config & Happly & Hlook).
    exists config. split; [exact Happly|]. intros k. rewrite Hlook.
    apply (f_equal (fun b : bool => if b then m !! k else cur !! k)).
    apply bool_decide_ext. rewrite elem_of_cons.
    split; [intuition|]. intros [[->|?] Hs]; [|done].
    rewrite Hkey in Hs. by destruct Hs.
Qed.

Lemma apply_settings_keeps_keys keys new_settings current_config config :
  apply_settings keys new_settings current_config = Ok config ->
  forall k, is_Some (current_config !! k) -> is_Some (config !! k).
Proof.
  revert current_config. induction keys as [|key rest IH]; intros cur.
  { by intros [= <-]. }
  cbn [apply_settings]. unfold and_then.
  destruct (py_in key new_settings) as [[|]|e]; [| |done].
  - destruct (py_getitem new_settings key) as [v|e]; [|done].
    intros Happly k Hk. apply (IH _ Happly).
    destruct (decide (key = k)) as [->|Hne];
      [by rewrite lookup_insert_eq | by rewrite lookup_insert_ne].
  - apply IH.
Qed.

(** Posting an object when the file can be written: the document saved
    and returned takes the four allowed fields from the body where the
    body has them, and everything else from the configuration as
    loaded, so other fields of the body are dropped and unknown fields
    already stored are kept. *)
Theorem update_settings_merges_allowed_fields W fs m file st :
  (forall doc, fs file doc = Written) ->
  exists config st',
    update_settings W fs (JObj m) file st =
      (Ok (Json config), FileJson (JObj config), st') /\
    forall k,
      config !! k =
      if bool_decide (k ∈ allowed_keys /\ is_Some (m !! k)) then m !! k
      else stored_config file !! k.
Proof.
  intros Hfs. unfold update_settings.
  destruct (load_config_with_file W file st) as (st0 & -> & _).
  destruct (apply_settings_object allowed_keys m (stored_config file))
    as (config & -> & Hlook).
  unfold save_config. rewrite Hfs. by eexists _, _.
Qed.

Lemma update_settings_merges_allowed_fields_witness :
  exists config st',
    update_settings
      (simple_world [] (Ok web_image) (Ok tt) "host" FileMissing 0) writable
      (JObj (<["check_mode" := JStr "background"]>
             (<["theme" := JStr "dark"]> ∅)))
      (FileJson (JObj {[ "owner" := JStr "ops" ]})) empty_state =
      (Ok (Json config), FileJson (JObj config), st') /\
    config !! "check_mode" = Some (JStr "background") /\
    config !! "check_interval" = Some (JInt 60) /\
    config !! "theme" = None /\
    config !! "owner" = Some (JStr "ops").
Proof.
  destruct (update_settings_merges_allowed_fields
              (simple_world [] (Ok web_image) (Ok tt) "host" FileMissing 0) writable
              (<["check_mode" := JStr "background"]>
               (<["theme" := JStr "dark"]> ∅))
              (FileJson (JObj {[ "owner" := JStr "ops" ]})) empty_state
              (fun _ => eq_refl))
    as (config & st' & Hrun & Hlook).
  exists config, st'. split; [exact Hrun|].
  rewrite !Hlook. repeat split; reflexivity.
Defined.

(** What was saved is what is loaded: after [save_config] has returned
    [True] the next [load_config] returns the saved document laid over
    the defaults, which is the saved document itself when it has the
    four recognised fields. *)
Theorem save_then_load fs config file st file' st' :
  save_config fs config file st = (true, file', st') ->
  forall W s,
    exists s',
      load_config (with_file W file') s = (Ok (config ∪ DEFAULT_CONFIG), s') /\
      ((forall k, k ∈ allowed_keys -> is_Some (config !! k)) ->
       config ∪ DEFAULT_CONFIG = config).
Proof.
  unfold save_config. destruct (fs file config); [|done].
  intros [= <- <-] W s.
  destruct (load_config_with_file W (FileJson (JObj config)) s) as (s' & Hload & _).
  exists s'. split; [exact Hload|].
  intros Hkeys. apply union_absorbs. intros k [v Hv].
  apply Hkeys. unfold DEFAULT_CONFIG, allowed_keys in *.
  repeat (apply lookup_insert_Some in Hv as [[<- _]|[_ Hv]];
          [set_solver|]).
  done.
Qed.

Lemma save_then_load_witness :
  exists s',
    load_config
      (with_file (simple_world [] (Ok web_image) (Ok tt) "host" FileMissing 0)
         (FileJson (JObj {[ "check_mode" := JStr "background" ]})))
      empty_state =
      (Ok (<["check_mode" := JStr "background"]> DEFAULT_CONFIG), s').
Proof.
  destruct (save_then_load writable {[ "check_mode" := JStr "background" ]}
              FileMissing empty_state
              (FileJson (JObj {[ "check_mode" := JStr "background" ]})) empty_state
              eq_refl
              (simple_world [] (Ok web_image) (Ok tt) "host" FileMissing 0)
              empty_state)
    as (s' & Hload & _).
  exists s'. rewrite Hload. reflexivity.
Defined.

(** The settings round trip: whenever [update_settings] answers with
    success, the configuration in the answer is the one every later
    [load_config] returns from the file it left. *)
Theorem update_settings_round_trip W fs new_settings file st config file' st' :
  update_settings W fs new_settings file st = (Ok (Json config), file', st') ->
  file' = FileJson (JObj config) /\
  forall W' s,
    exists s', load_config (with_file W' file') s = (Ok config, s').
Proof.
  unfold update_settings.
  destruct (load_config_with_file W file st) as (st0 & -> & _).
  destruct (apply_settings allowed_keys new_settings (stored_config file))
    as [config'|e] eqn:Happly; [|done].
  unfold save_config. destruct (fs file config'); [|done].
  intros [= <- <- <-]. split; [done|]. intros W' s.
  destruct (load_config_with_file W' (FileJson (JObj config')) s)
    as (s' & Hload & _).
  exists s'. rewrite Hload. f_equal. f_equal. simpl.
  apply union_absorbs. intros k Hk.
  apply (apply_settings_keeps_keys _ _ _ _ Happly).
  by apply stored_config_has_defaults.
Qed.

Lemma update_settings_round_trip_witness :
  let W := simple_world [] (Ok web_image) (Ok tt) "host" FileMissing 0 in
  let body := JObj {[ "check_interval" := JInt 5 ]} in
  exists config file' st' s',
    update_settings W writable body FileMissing empty_state =
      (Ok (Json config), file', st') /\
    load_config (with_file W file') empty_state = (Ok config, s') /\
    config !! "check_interval" = Some (JInt 5) /\
    config !! "check_mode" = Some (JStr "manual").
Proof.
  intros W body.
  destruct (update_settings_round_trip W writable body FileMissing empty_state
              (<["check_interval" := JInt 5]> DEFAULT_CONFIG)
              (FileJson (JObj (<["check_interval" := JInt 5]> DEFAULT_CONFIG)))
              empty_state eq_refl)
    as [_ Hload].
  destruct (Hload W empty_state) as (s' & Hs').
  eexists _, _, _, s'. split; [reflexivity|]. split; [exact Hs'|].
  split; reflexivity.
Defined.

(** When the file cannot be written the route answers with the error
    "Failed to save config" and status 500, the failure is logged, and
    the file is as the failed write left it. *)
Theorem update_settings_save_failure W fs m file st e left_behind :
  (forall doc, fs file doc = WriteRaises e left_behind) ->
  exists st0,
    load_config (with_file W file) st = (Ok (stored_config file), st0) /\
    update_settings W fs (JObj m) file st =
      (Ok (JsonError "Failed to save config" 500), left_behind,
       after st0 (EvLog Error ("Error saving config: " +:+ exn_msg e))).
Proof.
  intros Hfs. unfold update_settings.
  destruct (load_config_with_file W file st) as (st0 & Hload & _).
  exists st0. split; [exact Hload|]. rewrite Hload.
  destruct (apply_settings_object allowed_keys m (stored_config file))
    as (config & -> & _).
  unfold save_config. by rewrite Hfs.
Qed.

Lemma update_settings_save_failure_witness :
  update_settings
    (simple_world [] (Ok web_image) (Ok tt) "host" FileMissing 0) read_only
    (JObj {[ "check_mode" := JStr "background" ]}) FileMissing empty_state =
  (Ok (JsonError "Failed to save config" 500), FileMissing,
   after empty_state (EvLog Error "Error saving config: Read-only file system")).
Proof.
  destruct (update_settings_save_failure
              (simple_world [] (Ok web_image) (Ok tt) "host" FileMissing 0)
              read_only {[ "check_mode" := JStr "background" ]}
              FileMissing empty_state
              (Exn OtherError "Read-only file system") FileMissing
              (fun _ => eq_refl))
    as (st0 & Hload & Hrun).
  injection Hload as <-. exact Hrun.
Defined.

(** A body that is [null], a boolean or a number makes the route raise
    a [TypeError] at the first membership test: nothing is written and
    the file is untouched. *)
Theorem update_settings_rejects_scalar_body W fs new_settings file st :
  match new_settings with
  | JNull | JBool _ | JInt _ | JFloat _ => True
  | _ => False
  end ->
  exists e st',
    update_settings W fs new_settings file st = (Raise e, file, st') /\
    exn_cls e = TypeError /\
    no_runtime_activity st st'.
Proof.
  intros Hbody. unfold update_settings.
  destruct (load_config_with_file W file st) as (st0 & -> & Hq).
  destruct new_settings; try done; simpl; by eexists _, _.
Qed.

Lemma update_settings_rejects_scalar_body_witness :
  exists e st',
    update_settings
      (simple_world [] (Ok web_image) (Ok tt) "host" FileMissing 0) writable
      JNull (background_file "background" 5) empty_state =
      (Raise e, background_file "background" 5, st') /\
    exn_cls e = TypeError.
Proof.
  destruct (update_settings_rejects_scalar_body
              (simple_world [] (Ok web_image) (Ok tt) "host" FileMissing 0) writable
              JNull (background_file "background" 5) empty_state I)
    as (e & st' & Hrun & Hcls & _).
  by exists e, st'.
Defined.

(** Changing the settings never touches the daemon or the cache. *)
Theorem update_settings_leaves_runtime_alone W fs new_settings file st :
  no_runtime_activity st (snd (update_settings W fs new_settings file st)).
Proof.
  unfold update_settings.
  destruct (load_config_with_file W file st) as (st0 & -> & Hq).
  destruct (apply_settings _ _ _) as [config|e]; [|exact Hq].
  unfold save_config. destruct (fs file config); [exact Hq|].
  unfold no_runtime_activity in *. simpl. trace_norm. exact Hq.
Qed.

(** ** The background worker *)

Section WorkerProperties.

Variable int_of_str : string -> PyResult Z.

(** The worker never stops on an exception: every pass returns, and
    ends with a sleep of ten seconds, or of sixty after an error that
    reached the outer handler; so does any number of passes. *)
Theorem background_worker_never_raises W :
  (forall last_check_time st,
     exists last_check_time' st' t seconds,
       worker_iteration int_of_str W last_check_time st =
         (Ok last_check_time', st') /\
       trace st' = t ++ [EvSleep seconds] /\
       (seconds = 10 \/ seconds = 60)%Z) /\
  (forall n st,
     exists last_check_time' st',
       background_worker int_of_str W n st = (Ok last_check_time', st')).
Proof.
  assert (Hpass : forall last_check_time st,
            exists last_check_time' st' t seconds,
              worker_iteration int_of_str W last_check_time st =
                (Ok last_check_time', st') /\
              trace st' = t ++ [EvSleep seconds] /\
              (seconds = 10 \/ seconds = 60)%Z).
  { intros last st.
    destruct (load_config_value W st) as (st0 & Hload & _).
    rewrite (worker_iteration_cases _ _ _ _ _ _ Hload).
    destruct (py_eq_str _ "background");
      [|eexists _, _, _, _; split; [reflexivity|]; split; [reflexivity|by left]].
    destruct (py_int _ _) as [minutes|e];
      [|eexists _, _, _, _; split; [reflexivity|]; split; [reflexivity|by right]].
    destruct (interval_elapsed _ _ _);
      [|eexists _, _, _, _; split; [reflexivity|]; split; [reflexivity|by left]].
    destruct (check_cycle _ _ _) as [[t|e] s];
      eexists _, _, _, _; (split; [reflexivity|]); split; try reflexivity; by left. }
  split; [exact Hpass|].
  intros n st. unfold background_worker, bind, log, emit.
  generalize ({| SERVER_CACHE := SERVER_CACHE st;
                 trace := trace st ++ [EvLog Info "Background worker started."] |}).
  generalize 0%Q.
  induction n as [|n IH]; intros last s; simpl.
  { by eexists _, _. }
  destruct (Hpass last s) as (last' & s' & _ & _ & Hit & _).
  unfold bind. rewrite Hit. apply IH.
Qed.

(** An interval that [int] does not accept, in background mode: the
    pass logs a critical error, backs off for sixty seconds and asks
    the daemon nothing; [last_check_time] stays. *)
Theorem unreadable_interval_backs_off W last_check_time st config st0 e :
  load_config W st = (Ok config, st0) ->
  check_mode_of config = JStr "background" ->
  py_int int_of_str (check_interval_of config) = Raise e ->
  worker_iteration int_of_str W last_check_time st =
    (Ok last_check_time,
     after (after st0 (EvLog Error ("Critical worker error: " +:+ exn_msg e)))
           (EvSleep 60)) /\
  no_runtime_activity st
    (after (after st0 (EvLog Error ("Critical worker error: " +:+ exn_msg e)))
           (EvSleep 60)).
Proof.
  intros Hload Hmode Hint.
  rewrite (worker_iteration_cases _ _ _ _ _ _ Hload), Hmode, Hint. simpl.
  split; [done|].
  apply load_config_quiet in Hload as [_ (Hc & He & Hi & Hp & Hr)].
  unfold no_runtime_activity, after. simpl. trace_norm.
  by rewrite Hc, He, Hi, Hp, Hr.
Qed.

(** An enumeration that raises, with a connected client: the error is
    logged, the pass sleeps its ten seconds and [last_check_time]
    stays, so that the cycle is due again at every later reading of
    the clock, not only after another interval. *)
Theorem failed_enumeration_keeps_cycle_due
    W last_check_time st config st0 minutes e :
  client_connected W = true ->
  load_config W st = (Ok config, st0) ->
  check_mode_of config = JStr "background" ->
  py_int int_of_str (check_interval_of config) = Ok minutes ->
  interval_elapsed (time_time W (trace st0)) last_check_time (minutes * 60) = true ->
  containers_list W
    (trace st0 ++ [EvLog Info "Background schedule: Starting check cycle..."]) =
    Raise e ->
  (exists st',
     worker_iteration int_of_str W last_check_time st = (Ok last_check_time, st') /\
     exists t,
       trace st' =
         t ++ [EvLog Error ("Error during container loop: " +:+ exn_msg e);
               EvSleep 10]) /\
  (forall now,
     (time_time W (trace st0) <= now)%Q ->
     cycle_due (check_mode_of config) (Ok minutes) now last_check_time = true).
Proof.
  intros Hconn Hload Hmode Hint Hdue Hlist. split.
  - rewrite (worker_iteration_cases _ _ _ _ _ _ Hload), Hmode, Hint. simpl.
    rewrite Hdue.
    rewrite (check_cycle_list_fails W config
               (after st0 (EvLog Info "Background schedule: Starting check cycle..."))
               e Hconn Hlist).
    eexists. split; [reflexivity|]. simpl.
    exists ((trace st0 ++
             [EvLog Info "Background schedule: Starting check cycle..."]) ++
            [EvContainersList]).
    symmetry. apply (app_assoc _ [_] [_]).
  - intros now Hnow. unfold cycle_due. rewrite Hmode. simpl.
    apply interval_elapsed_spec. apply interval_elapsed_spec in Hdue.
    lra.
Qed.

(** An interval of zero or fewer minutes: a pass in background mode
    runs a cycle whenever the clock is not behind [last_check_time],
    that is, on every pass. *)
Theorem nonpositive_interval_is_always_due
    W last_check_time st config st0 minutes :
  client_connected W = true ->
  load_config W st = (Ok config, st0) ->
  check_mode_of config = JStr "background" ->
  py_int int_of_str (check_interval_of config) = Ok minutes ->
  (minutes <= 0)%Z ->
  (last_check_time <= time_time W (trace st0))%Q ->
  enumerations (trace (snd (worker_iteration int_of_str W last_check_time st))) =
    S (enumerations (trace st)).
Proof.
  intros Hconn Hload Hmode Hint Hneg Hclock.
  rewrite (worker_iteration_cases _ _ _ _ _ _ Hload), Hmode, Hint. simpl.
  assert (Hdue : interval_elapsed (time_time W (trace st0)) last_check_time
                   (minutes * 60) = true).
  { apply interval_elapsed_spec.
    assert (inject_Z (minutes * 60) <= 0)%Q.
    { change 0%Q with (inject_Z 0). rewrite <- Zle_Qle. lia. }
    lra. }
  rewrite Hdue.
  apply load_config_quiet in Hload as [_ (_ & Henum & _)].
  assert (Happ : forall t ev,
            enumerations (t ++ [ev]) =
            enumerations t + enumerations [ev]).
  { intros t ev. unfold enumerations. by rewrite omap_app, length_app. }
  destruct (containers_list W
              (trace (after st0 (EvLog Info "Background schedule: Starting check cycle..."))))
    as [cs|e] eqn:Hlist.
  - destruct (check_cycle_completes W config _ cs Hconn Hlist)
      as (t_end & -> & _ & Henum').
    cbn [snd after trace]. rewrite !Happ, Henum'.
    cbn [after trace]. rewrite Happ, Henum.
    change (enumerations [EvLog Info "Background schedule: Starting check cycle..."])
      with 0.
    change (enumerations [EvLog Info "Background cycle finished."]) with 0.
    change (enumerations [EvSleep 10]) with 0. lia.
  - rewrite (check_cycle_list_fails W config _ e Hconn Hlist).
    cbn [snd after trace]. rewrite !Happ, Henum.
    change (enumerations [EvLog Info "Background schedule: Starting check cycle..."])
      with 0.
    change (enumerations [EvContainersList]) with 1.
    change (enumerations [EvLog Error ("Error during container loop: " +:+ exn_msg e)])
      with 0.
    change (enumerations [EvSleep 10]) with 0. lia.
Qed.

End WorkerProperties.

Lemma unreadable_interval_backs_off_witness :
  exists st',
    worker_iteration no_int_of_str
      (scheduled_world (background_with (JStr "hourly")) (Ok [web]))
      0%Q empty_state = (Ok 0%Q, st') /\
    trace st' =
      [EvLog Error "Critical worker error: invalid literal for int()";
       EvSleep 60].
Proof.
  destruct (unreadable_interval_backs_off no_int_of_str
              (scheduled_world (background_with (JStr "hourly")) (Ok [web]))
              0%Q empty_state
              (stored_config (background_with (JStr "hourly"))) empty_state
              (Exn ValueError "invalid literal for int()")
              eq_refl eq_refl eq_refl)
    as [Hrun _].
  eexists. split; [exact Hrun | reflexivity].
Defined.

Lemma failed_enumeration_keeps_cycle_due_witness :
  let W := scheduled_world (background_with (JInt 1))
             (Raise (Exn APIError "daemon not ready")) in
  (exists st',
     worker_iteration no_int_of_str W 0%Q empty_state = (Ok 0%Q, st')) /\
  cycle_due (JStr "background") (Ok 1%Z) (inject_Z 1010) 0%Q = true.
Proof.
  intros W.
  destruct (failed_enumeration_keeps_cycle_due no_int_of_str W 0%Q empty_state
              (stored_config (background_with (JInt 1))) empty_state 1%Z
              (Exn APIError "daemon not ready")
              eq_refl eq_refl eq_refl eq_refl eq_refl eq_refl)
    as [(st' & Hrun & _) Hdue].
  split; [by exists st'|].
  apply (Hdue (inject_Z 1010)). vm_compute. discriminate.
Defined.

Lemma nonpositive_interval_is_always_due_witness :
  enumerations
    (trace (snd (worker_iteration no_int_of_str
                   (scheduled_world (background_with (JInt 0)) (Ok [web]))
                   (inject_Z 1000) empty_state))) = 1.
Proof.
  apply (nonpositive_interval_is_always_due no_int_of_str
           (scheduled_world (background_with (JInt 0)) (Ok [web]))
           (inject_Z 1000) empty_state
           (stored_config (background_with (JInt 0))) empty_state 0%Z
           eq_refl eq_refl eq_refl eq_refl).
  - lia.
  - vm_compute. discriminate.
Defined.
